(** * prod-alert-sentry: the data-to-file conversion engine

    A shallow embedding of the [FileCreator] class of [src/index.ts]
    (option validation, file-name resolution, the CSV / text parsers and the
    three serializers) together with the properties stated about it.

    Conventions of the embedding.
    - A JavaScript string is a [string]; every [ascii] stands for the UTF-16
      code unit of the same number, so the strings covered are those whose
      code units are below 256.
    - A JavaScript number is an integer [Z] (printed in decimal, which is what
      [String] and [JSON.stringify] do for integers below 10^21).
    - An object is the list of its own enumerable properties in enumeration
      order; properties inherited from [Object.prototype] are not modelled
      (reading [__proto__], [constructor], [toString] and the like where they
      are not own properties, or shadowing [hasOwnProperty]).
    - A function that can throw returns a [result].

    Outside the model, and so outside every statement below:
    - an object with an own property named [hasOwnProperty], [toString] or
      [valueOf]: [flattenObject] calls [obj.hasOwnProperty(key)] and
      [String(v)] calls [v.toString()], and both throw a [TypeError] when the
      own property is not a function, where [flattenObject] and [toStr] here
      return;
    - a property read through the prototype chain: [getProp] answers for own
      properties only (with [message] and [stack] for an [Error] and
      [length] for an array), so [getNestedValue] is the code's on paths of
      own properties;
    - an [Error] of a subclass or with a changed [name]: [toStr] prints the
      name [Error];
    - a number that is not an integer;
    - a failure of [fs.writeFileSync] (a missing directory, a full disk): a
      serializer returns the text it would write, and [Throws] stands for
      the exceptions raised before the write. *)

From Stdlib Require Import String Ascii List ZArith Bool Arith Lia.
From Stdlib Require Import DecimalString DecimalPos DecimalZ.
Import ListNotations.
Open Scope list_scope.
Open Scope string_scope.

(** ** Characters and strings *)

Definition dq : ascii := "034"%char.
Definition comma : ascii := ","%char.
Definition lf : ascii := "010"%char.
Definition dot : ascii := "."%char.

Definition DQ : string := String dq "".
Definition NL : string := String lf "".

(** [s.includes(c)] for a one-character needle. *)
Fixpoint includes (c : ascii) (s : string) : bool :=
  match s with
  | "" => false
  | String x r => if Ascii.eqb x c then true else includes c r
  end.

(** [s.split(c)] for a one-character separator: never the empty list. *)
Fixpoint split (c : ascii) (s : string) : list string :=
  match s with
  | "" => [""]
  | String x r =>
      if Ascii.eqb x c then "" :: split c r
      else match split c r with
           | h :: t => String x h :: t
           | [] => [String x ""]
           end
  end.

(** [l.join(sep)] on an array of strings. *)
Definition join (sep : string) (l : list string) : string := String.concat sep l.

(** White space and line terminators removed by [String.prototype.trim],
    among the code units below 256. *)
Definition isWhiteSpace (c : ascii) : bool :=
  let n := nat_of_ascii c in
  (Nat.leb 9 n && Nat.leb n 13) || Nat.eqb n 32 || Nat.eqb n 160.

Fixpoint trimStart (s : string) : string :=
  match s with
  | "" => ""
  | String c r => if isWhiteSpace c then trimStart r else s
  end.

Fixpoint trimEnd (s : string) : string :=
  match s with
  | "" => ""
  | String c r =>
      match trimEnd r with
      | "" => if isWhiteSpace c then "" else String c ""
      | r' => String c r'
      end
  end.

Definition trim (s : string) : string := trimEnd (trimStart s).

(** The global replacement of every double quote by two of them. *)
Fixpoint doubleQuotes (s : string) : string :=
  match s with
  | "" => ""
  | String c r =>
      if Ascii.eqb c dq then String dq (String dq (doubleQuotes r))
      else String c (doubleQuotes r)
  end.

(** ** Values *)

(** The values the engine receives: JSON data, [undefined], and instances of
    [Error] (a message and a possibly missing stack). *)
Set Warnings "-register-all".

Inductive value : Type :=
| VUndefined
| VNull
| VBool (b : bool)
| VNum (n : Z)
| VStr (s : string)
| VArr (items : list value)
| VObj (fields : list (string * value))
| VError (message : string) (stack : option string).

(** Thrown exceptions. *)
Inductive exn : Type :=
| Error (message : string)
| TypeError (message : string).

Inductive result (A : Type) : Type :=
| Returns (a : A)
| Throws (e : exn).
Arguments Returns {A} a.
Arguments Throws {A} e.

(** [String(n)] for an integer [n]. *)
Definition numberToString (n : Z) : string := NilZero.string_of_int (Z.to_int n).

(** [typeof v === 'object'] *)
Definition typeofObject (v : value) : bool :=
  match v with
  | VNull | VArr _ | VObj _ | VError _ _ => true
  | _ => false
  end.

Definition isArray (v : value) : bool :=
  match v with VArr _ => true | _ => false end.

(** [String(v)], for values without an own [toString] or [valueOf] and for
    an [Error] whose [name] is [Error]. *)
Fixpoint toStr (v : value) : string :=
  match v with
  | VUndefined => "undefined"
  | VNull => "null"
  | VBool b => if b then "true" else "false"
  | VNum n => numberToString n
  | VStr s => s
  | VArr items =>
      join "," ((fix each (l : list value) : list string :=
                   match l with
                   | [] => []
                   | x :: tl =>
                       match x with
                       | VUndefined | VNull => ""
                       | _ => toStr x
                       end :: each tl
                   end) items)
  | VObj _ => "[object Object]"
  | VError m _ => if String.eqb m "" then "Error" else "Error: " ++ m
  end.

(** *** JSON.stringify *)

Definition hexDigit (n : nat) : ascii :=
  match n with
  | 0 => "0" | 1 => "1" | 2 => "2" | 3 => "3" | 4 => "4" | 5 => "5" | 6 => "6"
  | 7 => "7" | 8 => "8" | 9 => "9" | 10 => "a" | 11 => "b" | 12 => "c"
  | 13 => "d" | 14 => "e" | _ => "f"
  end%char.

Definition bs : ascii := "\"%char.

Definition quoteJSONChar (c : ascii) : string :=
  let n := nat_of_ascii c in
  if Nat.eqb n 8 then String bs "b"
  else if Nat.eqb n 9 then String bs "t"
  else if Nat.eqb n 10 then String bs "n"
  else if Nat.eqb n 12 then String bs "f"
  else if Nat.eqb n 13 then String bs "r"
  else if Nat.eqb n 34 then String bs DQ
  else if Nat.eqb n 92 then String bs (String bs "")
  else if Nat.ltb n 32 then
    String bs ("u00" ++ String (hexDigit (n / 16)) (String (hexDigit (n mod 16)) ""))
  else String c "".

Fixpoint quoteJSONBody (s : string) : string :=
  match s with
  | "" => ""
  | String c r => quoteJSONChar c ++ quoteJSONBody r
  end.

Definition quoteJSONString (s : string) : string := DQ ++ quoteJSONBody s ++ DQ.

(** The bracketing step shared by arrays and objects: [stepback] is the
    indentation of the enclosing level, [indent] that of the members. *)
Definition wrapJSON (op cl gap stepback indent : string) (parts : list string) : string :=
  match parts with
  | [] => op ++ cl
  | _ =>
      if String.eqb gap "" then op ++ join "," parts ++ cl
      else op ++ NL ++ indent ++ join ("," ++ NL ++ indent) parts ++ NL ++ stepback ++ cl
  end.

(** [JSON.stringify(v, null, gap)] at indentation [indent]; [None] is the
    [undefined] that [JSON.stringify] gives for [undefined]. *)
Fixpoint serializeJSON (gap indent : string) (v : value) : option string :=
  match v with
  | VUndefined => None
  | VNull => Some "null"
  | VBool b => Some (if b then "true" else "false")
  | VNum n => Some (numberToString n)
  | VStr s => Some (quoteJSONString s)
  | VError _ _ => Some "{}"
  | VArr items =>
      let inner := indent ++ gap in
      Some (wrapJSON "[" "]" gap indent inner
              ((fix each (l : list value) : list string :=
                  match l with
                  | [] => []
                  | x :: tl =>
                      match serializeJSON gap inner x with
                      | Some t => t
                      | None => "null"
                      end :: each tl
                  end) items))
  | VObj fields =>
      let inner := indent ++ gap in
      Some (wrapJSON "{" "}" gap indent inner
              ((fix each (l : list (string * value)) : list string :=
                  match l with
                  | [] => []
                  | (k, x) :: tl =>
                      match serializeJSON gap inner x with
                      | Some t =>
                          (quoteJSONString k ++ ":"
                             ++ (if String.eqb gap "" then "" else " ") ++ t) :: each tl
                      | None => each tl
                      end
                  end) fields))
  end.

Definition JSON_stringify (v : value) : option string := serializeJSON "" "" v.
Definition JSON_stringify2 (v : value) : option string := serializeJSON "  " "" v.

(** A template literal or [+=] applied to the result of [JSON.stringify]. *)
Definition orUndefined (o : option string) : string :=
  match o with Some s => s | None => "undefined" end.


(** ** Objects *)

Definition isDigit (c : ascii) : bool :=
  let n := nat_of_ascii c in Nat.leb 48 n && Nat.leb n 57.

Fixpoint digitsValue (acc : N) (s : string) : option N :=
  match s with
  | "" => Some acc
  | String c r =>
      if isDigit c then digitsValue (acc * 10 + N.of_nat (nat_of_ascii c - 48)) r
      else None
  end.

(** The array index a property key denotes, if it is a canonical numeric
    string below 2^32 - 1. *)
Definition arrayIndex (k : string) : option N :=
  match k with
  | "" => None
  | String c r =>
      if Ascii.eqb c "0" && negb (String.eqb r "") then None
      else match digitsValue 0 k with
           | Some n => if N.ltb n 4294967295 then Some n else None
           | None => None
           end
  end.

Fixpoint hasOwn (k : string) (fs : list (string * value)) : bool :=
  match fs with
  | [] => false
  | (k', _) :: tl => if String.eqb k' k then true else hasOwn k tl
  end.

(** Own-property read; a missing property reads as [undefined]. *)
Fixpoint getOwn (k : string) (fs : list (string * value)) : value :=
  match fs with
  | [] => VUndefined
  | (k', v) :: tl => if String.eqb k' k then v else getOwn k tl
  end.

Fixpoint replaceOwn (k : string) (v : value) (fs : list (string * value)) :
  list (string * value) :=
  match fs with
  | [] => []
  | (k', v') :: tl =>
      if String.eqb k' k then (k', v) :: tl else (k', v') :: replaceOwn k v tl
  end.

Fixpoint insertIndexed (n : N) (k : string) (v : value) (fs : list (string * value)) :
  list (string * value) :=
  match fs with
  | [] => [(k, v)]
  | (k', v') :: tl =>
      match arrayIndex k' with
      | Some m => if N.ltb n m then (k, v) :: fs else (k', v') :: insertIndexed n k v tl
      | None => (k, v) :: fs
      end
  end.

(** Defining an own data property: an existing key keeps its place, a new
    index key goes among the index keys in ascending order, any other new key
    goes last. *)
Definition defineOwn (k : string) (v : value) (fs : list (string * value)) :
  list (string * value) :=
  if hasOwn k fs then replaceOwn k v fs
  else match arrayIndex k with
       | Some n => insertIndexed n k v fs
       | None => (fs ++ [(k, v)])%list
       end.

(** [obj[k] = v] on a plain object: the key [__proto__] reaches the setter of
    [Object.prototype] and creates no own property. *)
Definition assign (k : string) (v : value) (fs : list (string * value)) :
  list (string * value) :=
  if String.eqb k "__proto__" then fs else defineOwn k v fs.

Fixpoint indexed {A : Type} (i : nat) (l : list A) : list (string * A) :=
  match l with
  | [] => []
  | x :: tl => (numberToString (Z.of_nat i), x) :: indexed (S i) tl
  end.

Fixpoint chars (s : string) : list value :=
  match s with
  | "" => []
  | String c r => VStr (String c "") :: chars r
  end.

(** The own enumerable properties copied by an object spread. *)
Definition ownEntries (v : value) : list (string * value) :=
  match v with
  | VObj fs => fs
  | VArr items => indexed 0 items
  | VStr s => indexed 0 (chars s)
  | _ => []
  end.

(** [current[key]] where [current] is an object, an array or an [Error],
    for a [key] that is an own property or names nothing along the prototype
    chain either. *)
Definition getProp (current : value) (key : string) : value :=
  match current with
  | VObj fs => getOwn key fs
  | VArr items =>
      if String.eqb key "length" then VNum (Z.of_nat (List.length items))
      else match arrayIndex key with
           | Some n => nth (N.to_nat n) items VUndefined
           | None => VUndefined
           end
  | VError m st =>
      if String.eqb key "message" then VStr m
      else if String.eqb key "stack" then
             match st with Some s => VStr s | None => VUndefined end
           else VUndefined
  | _ => VUndefined
  end.

(** ** CSV parsing *)

(** The loop of [parseCsvLine] over the characters still to read. *)
Fixpoint parseCsvLoop (line current : string) (inQuotes : bool) (result : list string) :
  list string :=
  match line with
  | "" => (result ++ [current])%list
  | String char rest =>
      if Ascii.eqb char dq then
        match rest with
        | String next rest' =>
            if inQuotes && Ascii.eqb next dq
            then parseCsvLoop rest' (current ++ DQ) inQuotes result
            else parseCsvLoop rest current (negb inQuotes) result
        | "" => parseCsvLoop rest current (negb inQuotes) result
        end
      else if Ascii.eqb char comma && negb inQuotes
           then parseCsvLoop rest "" inQuotes (result ++ [current])%list
           else parseCsvLoop rest (current ++ String char "") inQuotes result
  end.

Definition parseCsvLine (line : string) : list string := parseCsvLoop line "" false [].

(** [values[index] || ''] *)
Definition fieldAt (values : list string) (index : nat) : string := nth index values "".

(** The object built by the [forEach] over the headers. *)
Fixpoint rowObjectFrom (index : nat) (headers values : list string)
  (obj : list (string * value)) : list (string * value) :=
  match headers with
  | [] => obj
  | header :: tl =>
      rowObjectFrom (S index) tl values (assign header (VStr (fieldAt values index)) obj)
  end.

Definition rowObject (headers : list string) (line : string) : value :=
  VObj (rowObjectFrom 0 headers (parseCsvLine line) []).

Definition parseCsvData (csvString : value) (headers : option (list string)) :
  result (list value) :=
  match csvString with
  | VStr csv =>
      let lines := split lf (trim csv) in
      if Nat.eqb (List.length lines) 0 then Returns []
      else match headers with
           | Some hs => Returns (map (rowObject hs) lines)
           | None =>
               let firstLineHeaders := parseCsvLine (hd "" lines) in
               Returns (map (rowObject firstLineHeaders) (tl lines))
           end
  | _ => Throws (Error "CSV data must be a string for conversion")
  end.

(** ** CSV serialization *)

Definition needsQuoting (s : string) : bool :=
  includes comma s || includes dq s || includes lf s.

Definition csvEscape (s : string) : string :=
  if needsQuoting s then DQ ++ doubleQuotes s ++ DQ else s.

(** The cell of a value found under a header (both object branches). *)
Definition csvCell (v : value) : string :=
  match v with
  | VNull | VUndefined => ""
  | _ =>
      csvEscape (if typeofObject v then orUndefined (JSON_stringify v) else toStr v)
  end.

Definition fullKeyOf (prefix key : string) : string :=
  if String.eqb prefix "" then key else prefix ++ "." ++ key.

(** The keys kept are those for which [obj.hasOwnProperty(key)] holds: all
    the enumerated ones, for objects that do not redefine [hasOwnProperty]. *)
Fixpoint flattenObject (obj : value) (prefix : string) : list string :=
  match obj with
  | VObj fs =>
      (fix each (l : list (string * value)) : list string :=
         match l with
         | [] => []
         | (key, v) :: tl =>
             (match v with
              | VObj _ | VError _ _ => flattenObject v (fullKeyOf prefix key)
              | _ => [fullKeyOf prefix key]
              end ++ each tl)%list
         end) fs
  | VArr items =>
      (fix each (i : nat) (l : list value) : list string :=
         match l with
         | [] => []
         | v :: tl =>
             (match v with
              | VObj _ | VError _ _ =>
                  flattenObject v (fullKeyOf prefix (numberToString (Z.of_nat i)))
              | _ => [fullKeyOf prefix (numberToString (Z.of_nat i))]
              end ++ each (S i) tl)%list
         end) 0 items
  | VStr s => map (fun e => fullKeyOf prefix (fst e)) (indexed 0 (chars s))
  | _ => []
  end.

Fixpoint setAdd (k : string) (seen : list string) : list string :=
  match seen with
  | [] => [k]
  | x :: tl => if String.eqb x k then seen else x :: setAdd k tl
  end.

Definition extractHeadersFromObjects (objects : list value) : list string :=
  fold_left (fun headers obj => fold_left (fun h key => setAdd key h) (flattenObject obj "") headers)
            objects [].

Fixpoint descend (keys : list string) (current : value) : value :=
  match keys with
  | [] => current
  | key :: tl =>
      match current with
      | VObj _ | VArr _ | VError _ _ => descend tl (getProp current key)
      | _ => VUndefined
      end
  end.

Definition getNestedValue (obj : value) (path : string) : value :=
  descend (split dot path) obj.

Definition objectKeys (v : value) : list string :=
  match v with
  | VObj fs => map fst fs
  | VArr items => map fst (indexed 0 items)
  | _ => []
  end.

Definition csvRow (allHeaders : list string) (item : value) : string :=
  join "," (map (fun header => csvCell (getNestedValue item header)) allHeaders) ++ NL.

Definition plainRow (row : value) : string :=
  match row with
  | VArr cells => join "," (map (fun cell => csvEscape (toStr cell)) cells) ++ NL
  | _ => toStr row ++ NL
  end.

Definition concatStrings (l : list string) : string := String.concat "" l.

(** The content [createCsvFile] writes, or the exception it throws. *)
Definition createCsvFile (data : value) (headers : option (list string)) : result string :=
  match data with
  | VArr [] => Returns "No data"
  | VArr ((first :: _) as items) =>
      if typeofObject first && negb (isArray first) then
        let allHeaders :=
          match headers with Some hs => hs | None => extractHeadersFromObjects items end in
        Returns (join "," allHeaders ++ NL ++ concatStrings (map (csvRow allHeaders) items))
      else
        Returns (match headers with Some hs => join "," hs ++ NL | None => "" end
                 ++ concatStrings (map plainRow items))
  | VNull =>
      match headers with
      | Some hs => Returns (join "," hs ++ NL ++ csvRow hs data)
      | None => Throws (TypeError "Cannot convert undefined or null to object")
      end
  | VObj _ | VError _ _ =>
      let allHeaders := match headers with Some hs => hs | None => objectKeys data end in
      Returns (join "," allHeaders ++ NL ++ csvRow allHeaders data)
  | _ =>
      match headers with
      | Some hs => Returns (join "," hs ++ NL ++ toStr data ++ NL)
      | None => Returns ("Value" ++ NL ++ toStr data ++ NL)
      end
  end.


(** ** Text parsing and the text and JSON serializers *)

Section Engine.

(** What the engine reads from its environment: the instant printed by
    [new Date().toISOString()], the built-in [JSON.parse] (which fails with
    [None]), the clock in epoch milliseconds and four random bytes. *)
Variable now : string.
Variable JSON_parse : string -> option value.
Variable getTime : Z.
Variable randomBytes : ascii * ascii * ascii * ascii.

Definition lineRecord (index : nat) (line : string) : value :=
  VObj [("lineNumber", VNum (Z.of_nat index + 1));
        ("content", VStr (trim line));
        ("characterCount", VNum (Z.of_nat (String.length line)))].

Fixpoint mapIndexed {A B : Type} (f : nat -> A -> B) (index : nat) (l : list A) : list B :=
  match l with
  | [] => []
  | x :: tl => f index x :: mapIndexed f (S index) tl
  end.

Definition parseTextData (text : value) : value :=
  match text with
  | VStr t =>
      let cleanedText := trim t in
      let lines := split lf cleanedText in
      if Nat.ltb 1 (List.length lines) then VArr (mapIndexed lineRecord 0 lines)
      else VObj [("content", VStr cleanedText);
                 ("timestamp", VStr now);
                 ("length", VNum (Z.of_nat (String.length cleanedText)))]
  | _ => VObj [("content", VStr (toStr text)); ("timestamp", VStr now)]
  end.

Definition parseJsonData (data : value) : result value :=
  match data with
  | VStr s =>
      match JSON_parse s with
      | Some v => Returns v
      | None => Throws (Error "Invalid JSON string provided for conversion")
      end
  | _ => Returns data
  end.

(** The content [createTextFile] writes. *)
Definition createTextFile (data : value) : string :=
  match data with
  | VStr s => s
  | VError message stack =>
      "ERROR: " ++ message ++ NL ++ NL ++ "STACK TRACE:" ++ NL
        ++ match stack with
           | Some s => if String.eqb s "" then "No stack trace" else s
           | None => "No stack trace"
           end
  | VNull | VArr _ | VObj _ => orUndefined (JSON_stringify2 data)
  | _ => toStr data
  end.

Definition metadata : value :=
  VObj [("generatedAt", VStr now); ("source", VStr "error-notifier"); ("format", VStr "json")].

(** The [jsonData] of [createJsonFile]. *)
Definition jsonDataOf (data : value) : value :=
  match data with
  | VStr s =>
      match JSON_parse s with
      | Some v => v
      | None => VObj [("content", data); ("timestamp", VStr now)]
      end
  | VError message stack =>
      VObj [("error", VStr message);
            ("stack", match stack with Some s => VStr s | None => VUndefined end);
            ("timestamp", VStr now);
            ("type", VStr "Error")]
  | _ => data
  end.

(** The [finalData] of [createJsonFile]: the spread of [jsonData] followed
    by the [_metadata] property. *)
Definition finalDataOf (data : value) : list (string * value) :=
  defineOwn "_metadata" metadata (ownEntries (jsonDataOf data)).

(** The content [createJsonFile] writes. *)
Definition createJsonFile (data : value) : string :=
  orUndefined (JSON_stringify2 (VObj (finalDataOf data))).

(** ** Options, validation and file creation *)

Record options : Type := {
  fileName : option string;
  fileType : option string;
  from : option string;
  to : option string;
  csvHeaders : option (list string)
}.

(** Truthiness of an optional string: [undefined] and the empty string are falsy. *)
Definition truthy (x : option string) : bool :=
  match x with
  | Some s => negb (String.eqb s "")
  | None => false
  end.

Definition interp (x : option string) : string :=
  match x with Some s => s | None => "undefined" end.

Definition validFormats : list string := ["txt"; "json"; "csv"].

Definition isValidFormat (x : option string) : bool :=
  match x with
  | Some s => existsb (String.eqb s) validFormats
  | None => false
  end.

Definition sameText (x y : option string) : bool := String.eqb (interp x) (interp y).

Definition validateOptions (o : options) : result unit :=
  let hasFileType := truthy (fileType o) in
  let hasFrom := truthy (from o) in
  let hasTo := truthy (to o) in
  if hasFileType && (hasFrom || hasTo) then
    Throws (Error "Cannot use both fileType and from/to options together. Use either fileType for direct creation or from/to for conversion.")
  else if (hasFrom && negb hasTo) || (negb hasFrom && hasTo) then
    Throws (Error ("Both " ++ DQ ++ "from" ++ DQ ++ " and " ++ DQ ++ "to" ++ DQ
                     ++ " options must be provided together for format conversion."))
  else if truthy (fileType o) && negb (isValidFormat (fileType o)) then
    Throws (Error ("Invalid fileType: " ++ interp (fileType o) ++ ". Must be one of: "
                     ++ join ", " validFormats))
  else if truthy (from o) && negb (isValidFormat (from o)) then
    Throws (Error ("Invalid from format: " ++ interp (from o) ++ ". Must be one of: "
                     ++ join ", " validFormats))
  else if truthy (to o) && negb (isValidFormat (to o)) then
    Throws (Error ("Invalid to format: " ++ interp (to o) ++ ". Must be one of: "
                     ++ join ", " validFormats))
  else if truthy (from o) && truthy (to o) && sameText (from o) (to o) then
    Throws (Error ("Cannot convert from " ++ interp (from o) ++ " to " ++ interp (to o)
                     ++ " (same format). Use fileType option instead."))
  else Returns tt.

Definition resolveOutputFormat (o : options) : string :=
  if truthy (from o) && truthy (to o) then interp (to o)
  else if truthy (fileType o) then interp (fileType o)
  else "txt".

Definition hexByte (c : ascii) : string :=
  let n := nat_of_ascii c in
  String (hexDigit (n / 16)) (String (hexDigit (n mod 16)) "").

Definition randomHex : string :=
  let '(b0, b1, b2, b3) := randomBytes in
  hexByte b0 ++ hexByte b1 ++ hexByte b2 ++ hexByte b3.

(** The file name [createFileFromData] settles on. *)
Definition resolveFileName (name : option string) (outputFormat : string) : string :=
  if negb (truthy name) then
    "alert-" ++ numberToString getTime ++ "-" ++ randomHex ++ "." ++ outputFormat
  else if negb (includes dot (interp name)) then interp name ++ "." ++ outputFormat
  else interp name.

Definition bind {A B : Type} (r : result A) (k : A -> result B) : result B :=
  match r with
  | Returns a => k a
  | Throws e => Throws e
  end.

(** The content written by [convertAndCreateFile], if any. *)
Definition convertAndCreateFile (data : value) (src dst : string)
  (headers : option (list string)) : result (option string) :=
  if String.eqb src "json" then
    if String.eqb dst "csv" then
      bind (parseJsonData data) (fun v =>
      bind (createCsvFile v headers) (fun c => Returns (Some c)))
    else if String.eqb dst "txt" then
      bind (parseJsonData data) (fun v => Returns (Some (createTextFile v)))
    else Returns None
  else if String.eqb src "csv" then
    if String.eqb dst "json" then
      bind (parseCsvData data headers) (fun rows => Returns (Some (createJsonFile (VArr rows))))
    else if String.eqb dst "txt" then
      bind (parseCsvData data headers) (fun rows => Returns (Some (createTextFile (VArr rows))))
    else Returns None
  else if String.eqb src "txt" then
    if String.eqb dst "json" then Returns (Some (createJsonFile (parseTextData data)))
    else if String.eqb dst "csv" then
      bind (createCsvFile (parseTextData data) headers) (fun c => Returns (Some c))
    else Returns None
  else Returns None.

Definition createFileDirectly (data : value) (type : string)
  (headers : option (list string)) : result (option string) :=
  if String.eqb type "txt" then Returns (Some (createTextFile data))
  else if String.eqb type "json" then Returns (Some (createJsonFile data))
  else if String.eqb type "csv" then
    bind (createCsvFile data headers) (fun c => Returns (Some c))
  else Throws (Error ("Unsupported file type: " ++ type)).

(** The name of the file under the temporary directory and what is handed
    to [fs.writeFileSync] for it; [Throws] is an exception raised before the
    write. *)
Definition createFileFromData (data : value) (o : options) :
  result (string * option string) :=
  bind (validateOptions o) (fun _ =>
  let outputFormat := resolveOutputFormat o in
  let shouldConvert := truthy (from o) && truthy (to o) in
  let name := resolveFileName (fileName o) outputFormat in
  bind (if shouldConvert
        then convertAndCreateFile data (interp (from o)) (interp (to o)) (csvHeaders o)
        else createFileDirectly data outputFormat (csvHeaders o))
       (fun content => Returns (name, content))).

End Engine.

(** ** The configuration store *)

(** The fields of [ConfigStore]; the Slack client is represented by the
    token it was built with.  Creating the upload directory on disk when the
    store is initialized is an effect outside this record. *)
Record ConfigStore : Type := {
  isInitialized : bool;
  slackToken : string;
  defaultChannelName : string;
  defaultChannelId : string;
  slackClient : option string;
  autoDeleteFiles : bool;
  tempDir : string
}.

(** The store as its field initializers leave it. *)
Definition freshStore : ConfigStore :=
  {| isInitialized := false; slackToken := ""; defaultChannelName := "";
     defaultChannelId := ""; slackClient := None; autoDeleteFiles := true; tempDir := "" |}.

Section Store.

(** The path of the upload directory next to the compiled module. *)
Variable tempUploads : string.

Definition initialize (c : ConfigStore) (token channelName channelId : string) : ConfigStore :=
  if isInitialized c then c
  else {| isInitialized := true; slackToken := token; defaultChannelName := channelName;
          defaultChannelId := channelId; slackClient := Some token;
          autoDeleteFiles := autoDeleteFiles c; tempDir := tempUploads |}.

(** The three environment variables read by [tryAutoInitialize]. *)
Record environment : Type := {
  SLACK_TOKEN_ID : option string;
  CHANNEL_NAME : option string;
  CHANNEL_ID : option string
}.

Definition orEmpty (x : option string) : string :=
  match x with Some s => s | None => "" end.

Definition tryAutoInitialize (c : ConfigStore) (env : environment) : ConfigStore :=
  let channelName := orEmpty (CHANNEL_NAME env) in
  let channelId := orEmpty (CHANNEL_ID env) in
  if truthy (SLACK_TOKEN_ID env) && negb (String.eqb channelName "")
     && negb (String.eqb channelId "")
  then initialize c (orEmpty (SLACK_TOKEN_ID env)) channelName channelId
  else c.

(** The constructor, as [getInstance] runs it once. *)
Definition getInstance (env : environment) : ConfigStore := tryAutoInitialize freshStore env.

Definition setAutoDelete (b : bool) (c : ConfigStore) : ConfigStore :=
  {| isInitialized := isInitialized c; slackToken := slackToken c;
     defaultChannelName := defaultChannelName c; defaultChannelId := defaultChannelId c;
     slackClient := slackClient c; autoDeleteFiles := b; tempDir := tempDir c |}.

(** [init]; the last argument is [options?.autoDeleteFiles]. *)
Definition init (c : ConfigStore) (token channelName channelId : string)
  (autoDelete : option bool) : result ConfigStore :=
  if isInitialized c then Throws (Error "error-notifier: Already initialized!")
  else if String.eqb token "" || negb (String.prefix "xoxb-" token) then
    Throws (Error "error-notifier: Invalid Slack bot token format. Token should start with xoxb-")
  else if String.eqb channelName "" then Throws (Error "error-notifier: Channel name is required")
  else if String.eqb channelId "" then Throws (Error "error-notifier: Channel ID is required")
  else
    let c' := initialize c token channelName channelId in
    Returns (match autoDelete with Some b => setAutoDelete b c' | None => c' end).

Definition getSlackClient (c : ConfigStore) : result string :=
  match slackClient c with
  | Some client => Returns client
  | None => Throws (Error "Slack client not initialized")
  end.

End Store.

(** ** The sweep of old files *)

Section Sweep.

(** The directory listing is a list of names with their modification times
    in milliseconds; [statFails] and [unlinkFails] say for which names
    [statSync] and [unlink] throw. *)
Variable statFails : string -> bool.
Variable unlinkFails : string -> bool.

(** The loop of [cleanupOldFiles]: what is left of the listing. *)
Fixpoint sweep (now maxAgeMs : Z) (files : list (string * Z)) : list (string * Z) :=
  match files with
  | [] => []
  | (file, mtimeMs) :: rest =>
      if statFails file then (file, mtimeMs) :: sweep now maxAgeMs rest
      else if Z.ltb maxAgeMs (now - mtimeMs) then
             if unlinkFails file then (file, mtimeMs) :: sweep now maxAgeMs rest
             else sweep now maxAgeMs rest
           else (file, mtimeMs) :: sweep now maxAgeMs rest
  end.

Definition cleanupOldFiles (maxAgeHours : option Z) (tempDirExists : bool) (now : Z)
  (files : list (string * Z)) : list (string * Z) :=
  if negb tempDirExists then files
  else
    let hours := match maxAgeHours with Some h => h | None => 24%Z end in
    sweep now (hours * 60 * 60 * 1000) files.

End Sweep.

(** ** Notions used in the statements *)

(** *** Sample inputs *)

(** The object with one scalar field and one nested object. *)
Definition nestedSample : value :=
  VObj [("a", VNum 1); ("b", VObj [("c", VNum 2); ("d", VNum 3)])].

(** Direct creation of a CSV file, nothing else set. *)
Definition csvOnly (headers : option (list string)) : options :=
  {| fileName := None; fileType := Some "csv"; from := None; to := None;
     csvHeaders := headers |}.

(** *** File names *)

Fixpoint allChars (p : ascii -> bool) (s : string) : bool :=
  match s with
  | "" => true
  | String c r => p c && allChars p r
  end.

Definition isHexChar (c : ascii) : bool :=
  let n := nat_of_ascii c in
  isDigit c || (Nat.leb 97 n && Nat.leb n 102).

(** *** The validation rules as the specification lists them *)

Inductive tagField : Type := FileTypeTag | FromTag | ToTag.

(** The outcome of checking the rules in order: accepted, or the first rule
    that is violated. *)
Inductive verdict : Type :=
| Accepted
| BothModes
| FromToAlone
| InvalidTag (field : tagField) (tag : string)
| SameFormat.

(** An option is given when it is truthy. *)
Definition given (x : option string) : bool := truthy x.

Definition outsideFormats (x : option string) : bool :=
  match x with
  | Some tag => negb (String.eqb tag "json" || String.eqb tag "csv" || String.eqb tag "txt")
  | None => false
  end.

(** The rules as the specification lists them.  Rule 1: a file type together with
    a from/to pair; rule 2: exactly one of from and to; rule 3: a given tag
    outside json, csv and txt; rule 4: from equal to to. *)
Definition firstViolation (o : options) : verdict :=
  if given (fileType o) && (given (from o) && given (to o)) then BothModes
  else if xorb (given (from o)) (given (to o)) then FromToAlone
  else if given (fileType o) && outsideFormats (fileType o)
       then InvalidTag FileTypeTag (interp (fileType o))
  else if given (from o) && outsideFormats (from o)
       then InvalidTag FromTag (interp (from o))
  else if given (to o) && outsideFormats (to o)
       then InvalidTag ToTag (interp (to o))
  else match from o, to o with
       | Some a, Some b => if given (from o) && String.eqb a b then SameFormat else Accepted
       | _, _ => Accepted
       end.

Definition bothModesMessage : string :=
  "Cannot use both fileType and from/to options together. Use either fileType for direct creation or from/to for conversion.".

Definition togetherMessage : string :=
  "Both " ++ DQ ++ "from" ++ DQ ++ " and " ++ DQ ++ "to" ++ DQ
    ++ " options must be provided together for format conversion.".

Definition tagLabel (f : tagField) : string :=
  match f with
  | FileTypeTag => "fileType"
  | FromTag => "from format"
  | ToTag => "to format"
  end.

(** The rules as the code checks them: rule 1 is a file type together with
    from or to, one of them being enough; the other rules are as above. *)
Definition violation (o : options) : verdict :=
  if given (fileType o) && (given (from o) || given (to o)) then BothModes
  else if xorb (given (from o)) (given (to o)) then FromToAlone
  else if given (fileType o) && outsideFormats (fileType o)
       then InvalidTag FileTypeTag (interp (fileType o))
  else if given (from o) && outsideFormats (from o)
       then InvalidTag FromTag (interp (from o))
  else if given (to o) && outsideFormats (to o)
       then InvalidTag ToTag (interp (to o))
  else match from o, to o with
       | Some a, Some b => if given (from o) && String.eqb a b then SameFormat else Accepted
       | _, _ => Accepted
       end.

(** The error of each rule: every rule has its own message, and all of them
    are thrown as instances of the plain [Error] class. *)
Definition ruleError (o : options) (v : verdict) : result unit :=
  match v with
  | Accepted => Returns tt
  | BothModes => Throws (Error bothModesMessage)
  | FromToAlone => Throws (Error togetherMessage)
  | InvalidTag f tag =>
      Throws (Error ("Invalid " ++ tagLabel f ++ ": " ++ tag ++ ". Must be one of: txt, json, csv"))
  | SameFormat =>
      Throws (Error ("Cannot convert from " ++ interp (from o) ++ " to " ++ interp (to o)
                       ++ " (same format). Use fileType option instead."))
  end.

(** A file type with from alone. *)
Definition fileTypeWithFrom : options :=
  {| fileName := None; fileType := Some "json"; from := Some "csv"; to := None;
     csvHeaders := None |}.

(** *** Text converted to JSON *)

(** The two records of the text made of the lines L1 and L2. *)
Definition twoLineRecords : list value :=
  [VObj [("lineNumber", VNum 1); ("content", VStr "L1"); ("characterCount", VNum 2)];
   VObj [("lineNumber", VNum 2); ("content", VStr "L2"); ("characterCount", VNum 2)]].

(** *** Text rendering *)

(** A value that has a message field and a stack field. *)
Definition hasMessageAndStack (v : value) : bool :=
  match v with
  | VError _ _ => true
  | VObj fs => hasOwn "message" fs && hasOwn "stack" fs
  | _ => false
  end.

Definition errorReport (message stackText : string) : string :=
  "ERROR: " ++ message ++ NL ++ NL ++ "STACK TRACE:" ++ NL ++ stackText.

Definition stackOrPlaceholder (stack : option string) : string :=
  match stack with
  | Some s => if String.eqb s "" then "No stack trace" else s
  | None => "No stack trace"
  end.

(** A plain object with the two fields of an error. *)
Definition plainFault : value := VObj [("message", VStr "m"); ("stack", VStr "s")].


(** *** Tables and their text *)

Definition startsWithQuote (s : string) : bool :=
  match s with
  | "" => false
  | String c _ => Ascii.eqb c dq
  end.

(** The line of a row and the text of a table as [createCsvFile] lays them
    out: the header line, then one line per row, each ended by a newline. *)
Definition rowLine (cells : list string) : string := join "," (map csvEscape cells).

Definition tableBody (hs : list string) (rows : list (list string)) : string :=
  join NL (join "," hs :: map rowLine rows).

Definition tableText (hs : list string) (rows : list (list string)) : string :=
  tableBody hs rows ++ NL.

Fixpoint lastChar (s : string) : option ascii :=
  match s with
  | "" => None
  | String c "" => Some c
  | String _ r => lastChar r
  end.

(** The row objects [parseCsvData] builds from rows of fields. *)
Definition tableRows (hs : list string) (rows : list (list string)) : list value :=
  map (fun r => VObj (rowObjectFrom 0 hs r [])) rows.

(** A field without comma, double quote and newline. *)
Definition plainField (s : string) : bool := negb (needsQuoting s).

(** A header that survives the unquoted header line and the dot-path
    lookup: nothing to quote, no dot, and not the name of the prototype
    accessor. *)
Definition columnName (h : string) : bool :=
  plainField h && negb (includes dot h) && negb (String.eqb h "__proto__").

(** A non-empty string whose first character is not white space. *)
Definition startsClean (h : string) : bool :=
  match h with
  | "" => false
  | String c _ => negb (isWhiteSpace c)
  end.

Fixpoint distinct (l : list string) : bool :=
  match l with
  | [] => true
  | x :: tl => negb (existsb (String.eqb x) tl) && distinct tl
  end.

(** A field with an embedded newline. *)
Definition brokenField : string := "a" ++ NL ++ "b".

(** A CSV text without quoting: the header line and the row lines, each
    ended by a newline. *)
Definition csvSource (hs : list string) (rows : list (list string)) : string :=
  join "," hs ++ NL ++ concatStrings (map (fun r => join "," r ++ NL) rows).

(** A two-line CSV text whose last line has no newline. *)
Definition unterminated : string := "a,b" ++ NL ++ "1,2".

(** A row of [width] fields, none of which needs quoting. *)
Definition regularRow (width : nat) (r : list string) : bool :=
  Nat.eqb (List.length r) width && forallb plainField r.

(** *** Counting and paths *)

(** The number of occurrences of a character. *)
Fixpoint countChar (c : ascii) (s : string) : nat :=
  match s with
  | "" => 0
  | String x r => (if Ascii.eqb x c then 1 else 0) + countChar c r
  end.

(** The headers [parseCsvData] keys the rows by, and the lines it turns into
    rows: all lines under a given header list, all but the first otherwise. *)
Definition headersIn (csv : string) (headers : option (list string)) : list string :=
  match headers with
  | Some hs => hs
  | None => parseCsvLine (hd "" (split lf (trim csv)))
  end.

Definition dataLines (csv : string) (headers : option (list string)) : list string :=
  match headers with
  | Some _ => split lf (trim csv)
  | None => tl (split lf (trim csv))
  end.

(** A string whose last character exists and is not white space. *)
Definition endsClean (s : string) : bool :=
  match lastChar s with
  | Some d => negb (isWhiteSpace d)
  | None => false
  end.

(** A row of [width] fields, none of which holds a newline. *)
Definition tableRow (width : nat) (r : list string) : bool :=
  Nat.eqb (List.length r) width && forallb (fun c => negb (includes lf c)) r.

(** An object whose keys, at every level of nested plain objects, are
    distinct, non-empty and free of dots. *)
Fixpoint wellKeyed (v : value) : bool :=
  match v with
  | VObj fs =>
      distinct (map fst fs)
      && (fix each (l : list (string * value)) : bool :=
            match l with
            | [] => true
            | (k, x) :: tl =>
                negb (String.eqb k "") && negb (includes dot k) && wellKeyed x && each tl
            end) fs
  | _ => true
  end.

(** A chain of own properties of nested plain objects. *)
Fixpoint hasPath (v : value) (ks : list string) : bool :=
  match ks with
  | [] => true
  | k :: tl =>
      match v with
      | VObj fs => hasOwn k fs && hasPath (getOwn k fs) tl
      | _ => false
      end
  end.

(** The values [flattenObject] walks into. *)
Definition isPlainObject (v : value) : bool :=
  match v with
  | VObj _ | VError _ _ => true
  | _ => false
  end.

(** What one property contributes to the flattened keys. *)
Definition flattenField (prefix : string) (kv : string * value) : list string :=
  match snd kv with
  | VObj _ | VError _ _ => flattenObject (snd kv) (fullKeyOf prefix (fst kv))
  | _ => [fullKeyOf prefix (fst kv)]
  end.

Definition keyOk (k : string) : Prop := k <> "" /\ includes dot k = false.

(** The text of a cell before quoting: empty for [null] and [undefined],
    the JSON text for objects and arrays, the string coercion otherwise. *)
Definition cellText (v : value) : string :=
  match v with
  | VNull | VUndefined => ""
  | _ => if typeofObject v then orUndefined (JSON_stringify v) else toStr v
  end.

(** The CSV line of a line of text: its number, its trimmed content quoted
    when needed, its length before trimming. *)
Definition lineRow (index : nat) (line : string) : string :=
  numberToString (Z.of_nat index + 1) ++ "," ++ csvEscape (trim line) ++ ","
    ++ numberToString (Z.of_nat (String.length line)) ++ NL.

Definition lineRowShort (index : nat) (line : string) : string :=
  numberToString (Z.of_nat index + 1) ++ "," ++ csvEscape (trim line) ++ NL.

Definition lineKeys : list string := ["lineNumber"; "content"; "characterCount"].

(** *** The life of a store *)

(** One call of [init]. *)
Record initCall : Type := {
  callToken : string;
  callChannelName : string;
  callChannelId : string;
  callAutoDelete : option bool
}.

Definition callInit (tempUploads : string) (c : ConfigStore) (call : initCall) :
  result ConfigStore :=
  init tempUploads c (callToken call) (callChannelName call) (callChannelId call)
       (callAutoDelete call).

(** A sequence of [init] calls, each caller catching its exception: the
    store at the end and the number of calls that succeeded. *)
Fixpoint runInits (tempUploads : string) (c : ConfigStore) (calls : list initCall) :
  ConfigStore * nat :=
  match calls with
  | [] => (c, 0)
  | call :: rest =>
      match callInit tempUploads c call with
      | Returns c' => let '(final, n) := runInits tempUploads c' rest in (final, S n)
      | Throws _ => runInits tempUploads c rest
      end
  end.

(** The stores a program can observe: the instance as constructed, and
    what successful [init] calls make of it. *)
Inductive reachable (tempUploads : string) : ConfigStore -> Prop :=
| reach_instance (env : environment) : reachable tempUploads (getInstance tempUploads env)
| reach_init (c c' : ConfigStore) (call : initCall) :
    reachable tempUploads c -> callInit tempUploads c call = Returns c' ->
    reachable tempUploads c'.

(** * Properties *)

(** ** Basic facts about strings *)

Lemma append_empty_r (s : string) : s ++ "" = s.
Proof. induction s as [|c r IH]; simpl; [reflexivity | now rewrite IH]. Qed.

Lemma append_assoc (a b c : string) : (a ++ b) ++ c = a ++ (b ++ c).
Proof. induction a as [|x r IH]; simpl; [reflexivity | now rewrite IH]. Qed.

Lemma split_not_nil (c : ascii) (s : string) : split c s <> [].
Proof.
  destruct s as [|x r]; simpl; [discriminate|].
  destruct (Ascii.eqb x c); [discriminate|].
  destruct (split c r); discriminate.
Qed.

Lemma split_without (c : ascii) (s : string) : includes c s = false -> split c s = [s].
Proof.
  induction s as [|x r IH]; simpl; intro H; [reflexivity|].
  destruct (Ascii.eqb x c); [discriminate|].
  now rewrite (IH H).
Qed.

Lemma join_cons (sep x y : string) (l : list string) :
  join sep (x :: y :: l) = x ++ sep ++ join sep (y :: l).
Proof. reflexivity. Qed.

(** ** Dot-notation columns (C1) *)

(** C1. The value [{a:1, b:{c:2, d:3}}] serialized to CSV without a header
    list does not get the header line [a,b.c,b.d] and the row [1,2,3]: the
    single-object branch takes the top-level keys, so the header line is [a,b]
    and the nested object is written as a quoted JSON string.  The keys are
    flattened to [a], [b.c], [b.d], and the value does get these columns and
    the row [1,2,3], when it is wrapped in a one-element array or when the
    three headers are passed explicitly. *)
Theorem C1_single_object_top_level_keys :
  createCsvFile nestedSample None
    = Returns ("a,b" ++ NL ++ "1," ++ DQ ++ "{" ++ DQ ++ DQ ++ "c" ++ DQ ++ DQ ++ ":2,"
                 ++ DQ ++ DQ ++ "d" ++ DQ ++ DQ ++ ":3}" ++ DQ ++ NL)
  /\ flattenObject nestedSample "" = ["a"; "b.c"; "b.d"]
  /\ createCsvFile (VArr [nestedSample]) None = Returns ("a,b.c,b.d" ++ NL ++ "1,2,3" ++ NL)
  /\ createCsvFile nestedSample (Some ["a"; "b.c"; "b.d"])
     = Returns ("a,b.c,b.d" ++ NL ++ "1,2,3" ++ NL).
Proof. repeat split. Qed.

(** ** Empty CSV input (C5) *)

(** C5. On empty input the table is empty only when the headers are read
    from the first line; with a header list the single empty line becomes one
    row, because the split of the empty string is one empty line and the
    length test before the loop never holds. *)
Theorem C5_empty_input_with_headers_one_row :
  parseCsvData (VStr "") None = Returns []
  /\ (forall hs, parseCsvData (VStr "") (Some hs) = Returns [rowObject hs ""])
  /\ parseCsvData (VStr "") (Some ["a"; "b"])
     = Returns [VObj [("a", VStr ""); ("b", VStr "")]]
  /\ (forall s, 0 < List.length (split lf s)).
Proof.
  repeat split; try reflexivity.
  intro s. destruct (split lf s) eqn:E; [now apply split_not_nil in E | simpl; lia].
Qed.

(** ** The null input (C10) *)

Lemma getNestedValue_null (path : string) : getNestedValue VNull path = VUndefined.
Proof.
  unfold getNestedValue. destruct (split dot path) eqn:E; [|reflexivity].
  now apply split_not_nil in E.
Qed.

Lemma csvRow_null (hs : list string) :
  csvRow hs VNull = join "," (map (fun _ => "") hs) ++ NL.
Proof.
  unfold csvRow. f_equal. f_equal. apply map_ext. intro h.
  now rewrite getNestedValue_null.
Qed.

(** C10. Serializing [null] to CSV without a header list throws a
    [TypeError] and writes nothing, also through [createFileFromData]; with a
    header list it writes the header line and one row whose fields are all
    empty. *)
Theorem C10_null_to_csv :
  createCsvFile VNull None = Throws (TypeError "Cannot convert undefined or null to object")
  /\ (forall now parse time rnd,
        createFileFromData now parse time rnd VNull (csvOnly None)
        = Throws (TypeError "Cannot convert undefined or null to object"))
  /\ (forall hs,
        createCsvFile VNull (Some hs)
        = Returns (join "," hs ++ NL ++ join "," (map (fun _ => "") hs) ++ NL))
  /\ createCsvFile VNull (Some ["a"; "b"; "c"]) = Returns ("a,b,c" ++ NL ++ ",," ++ NL).
Proof.
  split; [reflexivity|]. split; [reflexivity|]. split; [|reflexivity].
  intro hs. simpl. now rewrite csvRow_null.
Qed.

(** ** File names (C9) *)

Lemma hexByte_shape (c : ascii) :
  exists x y, hexByte c = String x (String y "") /\ isHexChar x = true /\ isHexChar y = true.
Proof.
  destruct c as [[] [] [] [] [] [] [] []];
    (eexists; eexists; split; [reflexivity | split; reflexivity]).
Qed.

Lemma randomHex_shape (rnd : ascii * ascii * ascii * ascii) :
  String.length (randomHex rnd) = 8 /\ allChars isHexChar (randomHex rnd) = true.
Proof.
  destruct rnd as [[[b0 b1] b2] b3]. unfold randomHex.
  destruct (hexByte_shape b0) as (x0 & y0 & -> & H0 & H0').
  destruct (hexByte_shape b1) as (x1 & y1 & -> & H1 & H1').
  destruct (hexByte_shape b2) as (x2 & y2 & -> & H2 & H2').
  destruct (hexByte_shape b3) as (x3 & y3 & -> & H3 & H3').
  simpl. rewrite H0, H0', H1, H1', H2, H2', H3, H3'. split; reflexivity.
Qed.

Lemma includes_not_empty (c : ascii) (s : string) : includes c s = true -> s <> "".
Proof. destruct s; [discriminate | discriminate]. Qed.

Lemma truthy_nonempty (s : string) : s <> "" -> truthy (Some s) = true.
Proof. destruct s; [congruence | reflexivity]. Qed.

(** C9. A given file name that contains a dot is used as it is, whatever
    the output format; a given (non-empty) name without a dot gets a dot and
    the output format appended; without a name the result is [alert-], the
    clock in decimal, a dash, eight hexadecimal characters, a dot and the
    output format. *)
Theorem C9_file_name_resolution :
  (forall time rnd name fmt,
      includes dot name = true ->
      resolveFileName time rnd (Some name) fmt = name)
  /\ (forall time rnd name fmt,
        name <> "" -> includes dot name = false ->
        resolveFileName time rnd (Some name) fmt = name ++ "." ++ fmt)
  /\ (forall time rnd fmt,
        exists hex,
          String.length hex = 8 /\ allChars isHexChar hex = true
          /\ resolveFileName time rnd None fmt
             = "alert-" ++ numberToString time ++ "-" ++ hex ++ "." ++ fmt)
  /\ (forall time rnd,
        resolveFileName time rnd (Some "report.txt") "csv" = "report.txt"
        /\ resolveFileName time rnd (Some "report") "csv" = "report.csv")
  /\ (forall now parse time rnd data o name content,
        createFileFromData now parse time rnd data o = Returns (name, content) ->
        name = resolveFileName time rnd (fileName o) (resolveOutputFormat o))
  /\ (forall now parse time rnd,
        createFileFromData now parse time rnd (VStr "x")
          {| fileName := Some "report.txt"; fileType := Some "csv"; from := None;
             to := None; csvHeaders := None |}
        = Returns ("report.txt", Some ("Value" ++ NL ++ "x" ++ NL))).
Proof.
  split; [|split; [|split; [|split; [|split]]]].
  - intros time rnd name fmt H. unfold resolveFileName.
    rewrite (truthy_nonempty name (includes_not_empty _ _ H)). simpl. now rewrite H.
  - intros time rnd name fmt Hne H. unfold resolveFileName.
    rewrite (truthy_nonempty name Hne). simpl. now rewrite H.
  - intros time rnd fmt. exists (randomHex rnd).
    destruct (randomHex_shape rnd) as [Hl Hh]. repeat split; assumption.
  - intros; split; reflexivity.
  - intros now parse time rnd data o name content H. unfold createFileFromData, bind in H.
    destruct (validateOptions o); [|discriminate].
    match type of H with
    | match ?branch with _ => _ end = _ => destruct branch; [|discriminate]
    end.
    now injection H as <- _.
  - reflexivity.
Qed.

Lemma C9_file_name_resolution_witness :
  includes dot "report.txt" = true
  /\ resolveFileName 0 ("000", "000", "000", "000")%char (Some "report.txt") "csv" = "report.txt".
Proof.
  split; [reflexivity|].
  apply (proj1 C9_file_name_resolution 0%Z ("000", "000", "000", "000")%char "report.txt" "csv").
  reflexivity.
Defined.

(** ** Option validation (C4) *)

Lemma isValidFormat_outside (x : option string) :
  truthy x = true -> negb (isValidFormat x) = outsideFormats x.
Proof.
  destruct x as [s|]; [|discriminate]. intros _. unfold isValidFormat, outsideFormats. simpl.
  destruct (String.eqb s "txt"), (String.eqb s "json"), (String.eqb s "csv"); reflexivity.
Qed.

Lemma valid_guard (x : option string) :
  truthy x && negb (isValidFormat x) = given x && outsideFormats x.
Proof.
  unfold given. destruct (truthy x) eqn:E; [|reflexivity].
  simpl. now apply isValidFormat_outside.
Qed.

(** C4, as stated, fails: with a file type and from alone, the first rule
    violated in the listed order is the second (exactly one of from/to), but
    the error thrown is the one of the first rule, whose check fires as soon
    as the file type comes with from or to. *)
Lemma C4_file_type_with_from_alone :
  firstViolation fileTypeWithFrom = FromToAlone
  /\ ruleError fileTypeWithFrom (firstViolation fileTypeWithFrom)
     = Throws (Error togetherMessage)
  /\ validateOptions fileTypeWithFrom = Throws (Error bothModesMessage)
  /\ validateOptions fileTypeWithFrom
     <> ruleError fileTypeWithFrom (firstViolation fileTypeWithFrom).
Proof.
  split; [reflexivity|]. split; [reflexivity|]. split; [reflexivity|].
  vm_compute. discriminate.
Qed.

(** C4, amended. [validateOptions] throws the error of the first violated
    rule in this order: a file type together with from or to (one of them is
    enough), then exactly one of from/to, then a given tag outside json, csv
    and txt (the message names the tag and the valid set), then from equal to
    to.  An option is given when it is truthy.  Every violation is thrown as
    a plain [Error], there being no other error class in the code, which
    [createFileFromData] passes on before doing anything else; options
    violating none of the rules are accepted. *)
Theorem C4_validation_rules :
  (forall o, validateOptions o = ruleError o (violation o))
  /\ (forall o, violation o = Accepted <-> validateOptions o = Returns tt)
  /\ (forall o e, validateOptions o = Throws e -> exists message, e = Error message)
  /\ (forall now parse time rnd data o e,
        validateOptions o = Throws e ->
        createFileFromData now parse time rnd data o = Throws e).
Proof.
  assert (main : forall o, validateOptions o = ruleError o (violation o)).
  { intros [name ft fr t hs].
    unfold validateOptions, violation, ruleError. cbn [fileType from to].
    rewrite !valid_guard. unfold given.
    destruct (truthy ft) eqn:Eft, (truthy fr) eqn:Efr, (truthy t) eqn:Et;
      cbn [andb orb negb xorb];
      repeat (match goal with
              | |- context [outsideFormats ?x] => destruct (outsideFormats x) eqn:?
              end; cbn [andb orb negb xorb]);
      try reflexivity;
      destruct fr as [a|], t as [b|]; try discriminate; try reflexivity;
      unfold sameText; cbn [interp]; destruct (String.eqb a b); reflexivity. }
  split; [exact main|]. split; [|split].
  - intro o. rewrite main. destruct (violation o); simpl; split;
      intro H; try reflexivity; try discriminate.
  - intros o e. rewrite main. destruct (violation o); simpl; intro H;
      try discriminate; injection H as <-; eauto.
  - intros now parse time rnd data o e H. unfold createFileFromData. now rewrite H.
Qed.

Lemma C4_validation_rules_witness :
  validateOptions fileTypeWithFrom = Throws (Error bothModesMessage)
  /\ createFileFromData "" (fun _ => None) 0 ("000", "000", "000", "000")%char VNull
       fileTypeWithFrom
     = Throws (Error bothModesMessage).
Proof.
  split; [reflexivity|].
  apply (proj2 (proj2 (proj2 C4_validation_rules))). reflexivity.
Defined.

(** ** The text serializer (C8) *)

(** C8, as stated, fails: a plain object with a message and a stack field is
    not rendered as an error report but as indented JSON. *)
Lemma C8_plain_object_with_message_and_stack :
  hasMessageAndStack plainFault = true
  /\ (forall message stackText, createTextFile plainFault <> errorReport message stackText)
  /\ createTextFile plainFault
     = "{" ++ NL ++ "  " ++ DQ ++ "message" ++ DQ ++ ": " ++ DQ ++ "m" ++ DQ ++ "," ++ NL
         ++ "  " ++ DQ ++ "stack" ++ DQ ++ ": " ++ DQ ++ "s" ++ DQ ++ NL ++ "}".
Proof.
  split; [reflexivity|]. split; [|reflexivity].
  intros message stackText. vm_compute. discriminate.
Qed.

(** C8, amended. [createTextFile] renders an instance of [Error] as the
    error report with its stack, or the placeholder when the stack is missing
    or empty; a string is written as it is; every other object, plain objects
    with message and stack fields included, and every array is written as
    [JSON.stringify] with a two-space indent prints it: each member on a line
    of its own, indented two spaces more than the enclosing bracket. *)
Theorem C8_text_rendering :
  (forall message stack,
      createTextFile (VError message stack) = errorReport message (stackOrPlaceholder stack))
  /\ (forall s, createTextFile (VStr s) = s)
  /\ (forall fs, createTextFile (VObj fs) = orUndefined (serializeJSON "  " "" (VObj fs)))
  /\ (forall items, createTextFile (VArr items) = orUndefined (serializeJSON "  " "" (VArr items)))
  /\ (forall indent k v rest t,
        serializeJSON "  " (indent ++ "  ") v = Some t ->
        exists more,
          serializeJSON "  " indent (VObj ((k, v) :: rest))
          = Some ("{" ++ NL ++ (indent ++ "  ") ++ quoteJSONString k ++ ": " ++ t ++ more
                    ++ NL ++ indent ++ "}"))
  /\ createTextFile (VObj [("a", VNum 1); ("b", VArr [VStr "x"; VNull])])
     = "{" ++ NL ++ "  " ++ DQ ++ "a" ++ DQ ++ ": 1," ++ NL
         ++ "  " ++ DQ ++ "b" ++ DQ ++ ": [" ++ NL
         ++ "    " ++ DQ ++ "x" ++ DQ ++ "," ++ NL
         ++ "    null" ++ NL
         ++ "  ]" ++ NL ++ "}".
Proof.
  repeat split.
  - intros indent k v rest t H. cbn [serializeJSON]. rewrite H.
    match goal with
    | |- context [wrapJSON _ _ _ _ _ (_ :: ?tl)] => generalize tl; intro others
    end.
    unfold wrapJSON. cbn [String.eqb Ascii.eqb Bool.eqb].
    destruct others as [|o os].
    + exists "". unfold join. cbn [String.concat]. rewrite !append_assoc. reflexivity.
    + exists ("," ++ NL ++ (indent ++ "  ") ++ join ("," ++ NL ++ indent ++ "  ") (o :: os)).
      rewrite join_cons. rewrite !append_assoc. reflexivity.
Qed.

Lemma C8_text_rendering_witness :
  serializeJSON "  " ("" ++ "  ") (VNum 1) = Some "1"
  /\ exists more,
       serializeJSON "  " "" (VObj [("a", VNum 1)])
       = Some ("{" ++ NL ++ ("" ++ "  ") ++ quoteJSONString "a" ++ ": " ++ "1" ++ more
                 ++ NL ++ "" ++ "}").
Proof.
  split; [reflexivity|].
  apply (proj1 (proj2 (proj2 (proj2 (proj2 C8_text_rendering)))) "" "a" (VNum 1) [] "1").
  reflexivity.
Defined.

(** ** Multi-line text (C6) *)

Lemma join_split (c : ascii) (s : string) : join (String c "") (split c s) = s.
Proof.
  induction s as [|x r IH]; [reflexivity|]. cbn [split].
  destruct (Ascii.eqb x c) eqn:E.
  - apply Ascii.eqb_eq in E. subst x.
    destruct (split c r) as [|h t] eqn:S; [now apply split_not_nil in S|].
    rewrite join_cons, IH. reflexivity.
  - destruct (split c r) as [|h t] eqn:S; [now apply split_not_nil in S|].
    destruct t as [|h' t'].
    + unfold join in *. cbn [String.concat] in *. now rewrite IH.
    + rewrite join_cons in *. rewrite <- IH. reflexivity.
Qed.

Lemma split_includes_length (c : ascii) (s : string) :
  includes c s = true -> 1 < List.length (split c s).
Proof.
  induction s as [|x r IH]; simpl; [discriminate|].
  destruct (Ascii.eqb x c).
  - intros _. simpl. destruct (split c r) eqn:S; [now apply split_not_nil in S|]. simpl. lia.
  - intro H. specialize (IH H). destruct (split c r); simpl in *; lia.
Qed.

Lemma mapIndexed_length {A B : Type} (f : nat -> A -> B) (l : list A) :
  forall j, List.length (mapIndexed f j l) = List.length l.
Proof. induction l as [|x tl IH]; intro j; simpl; [reflexivity | now rewrite IH]. Qed.

Lemma mapIndexed_nth_error {A B : Type} (f : nat -> A -> B) (l : list A) :
  forall j i x, nth_error l i = Some x -> nth_error (mapIndexed f j l) i = Some (f (j + i) x).
Proof.
  induction l as [|y tl IH]; intros j i x H.
  - destruct i; discriminate.
  - destruct i as [|i]; simpl in *.
    + injection H as ->. now rewrite Nat.add_0_r.
    + rewrite (IH (S j) i x H). f_equal. f_equal. lia.
Qed.

(** ** The metadata of a JSON file (C7) *)

Lemma getOwn_absent (k : string) (fs : list (string * value)) :
  hasOwn k fs = false -> getOwn k fs = VUndefined.
Proof.
  induction fs as [|[k' v'] tl IH]; simpl; [reflexivity|].
  destruct (String.eqb k' k); [discriminate | exact IH].
Qed.

Lemma eqb_trans_false (a b c : string) :
  String.eqb a b = false -> String.eqb a c = true -> String.eqb b c = false.
Proof.
  intros H1 H2. apply String.eqb_eq in H2. subst c.
  rewrite String.eqb_sym. exact H1.
Qed.

Lemma getOwn_replaceOwn (k k' : string) (v : value) (fs : list (string * value)) :
  hasOwn k' fs = true ->
  getOwn k (replaceOwn k' v fs) = if String.eqb k' k then v else getOwn k fs.
Proof.
  induction fs as [|[k1 v1] tl IH]; simpl; [discriminate|].
  destruct (String.eqb k1 k') eqn:E1.
  - intros _. apply String.eqb_eq in E1. subst k1. simpl.
    destruct (String.eqb k' k); reflexivity.
  - intro H. simpl. destruct (String.eqb k1 k) eqn:E2.
    + now rewrite (eqb_trans_false k1 k' k E1 E2).
    + exact (IH H).
Qed.

Lemma getOwn_append (k k' : string) (v : value) (fs : list (string * value)) :
  hasOwn k' fs = false ->
  getOwn k (fs ++ [(k', v)])%list = if String.eqb k' k then v else getOwn k fs.
Proof.
  induction fs as [|[k1 v1] tl IH]; simpl; [reflexivity|].
  destruct (String.eqb k1 k') eqn:E1; [discriminate|].
  intro H. destruct (String.eqb k1 k) eqn:E2.
  - now rewrite (eqb_trans_false k1 k' k E1 E2).
  - exact (IH H).
Qed.

Lemma getOwn_insertIndexed (n : N) (k k' : string) (v : value) (fs : list (string * value)) :
  hasOwn k' fs = false ->
  getOwn k (insertIndexed n k' v fs) = if String.eqb k' k then v else getOwn k fs.
Proof.
  induction fs as [|[k1 v1] tl IH]; simpl; [reflexivity|].
  destruct (String.eqb k1 k') eqn:E1; [discriminate|].
  intro H. destruct (arrayIndex k1) as [m|]; [destruct (N.ltb n m)|]; simpl;
    try reflexivity.
  destruct (String.eqb k1 k) eqn:E2.
  - now rewrite (eqb_trans_false k1 k' k E1 E2).
  - exact (IH H).
Qed.

(** Reading after defining: the defined key reads the new value, every other
    key reads what it read before. *)
Lemma getOwn_defineOwn (k k' : string) (v : value) (fs : list (string * value)) :
  getOwn k (defineOwn k' v fs) = if String.eqb k' k then v else getOwn k fs.
Proof.
  unfold defineOwn. destruct (hasOwn k' fs) eqn:H.
  - now apply getOwn_replaceOwn.
  - destruct (arrayIndex k'); [now apply getOwn_insertIndexed | now apply getOwn_append].
Qed.

Lemma keys_replaceOwn (k : string) (v : value) (fs : list (string * value)) :
  map fst (replaceOwn k v fs) = map fst fs.
Proof.
  induction fs as [|[k1 v1] tl IH]; simpl; [reflexivity|].
  destruct (String.eqb k1 k); simpl; [reflexivity | now rewrite IH].
Qed.

Lemma to_int_proper (z : Z) :
  Z.to_int z <> Decimal.Pos Decimal.Nil /\ Z.to_int z <> Decimal.Neg Decimal.Nil.
Proof.
  destruct z as [|q|q]; simpl; split; try discriminate;
    intro H; injection H as H; exact (DecimalPos.Unsigned.to_uint_nonnil q H).
Qed.

(** Distinct integers print differently. *)
Lemma numberToString_inj (a b : Z) : numberToString a = numberToString b -> a = b.
Proof.
  unfold numberToString. intro H. apply DecimalZ.to_int_inj.
  destruct (to_int_proper a) as [Ha Ha']. destruct (to_int_proper b) as [Hb Hb'].
  pose proof (NilZero.isi _ Ha Ha') as Ia. pose proof (NilZero.isi _ Hb Hb') as Ib.
  rewrite H in Ia. congruence.
Qed.

(** The entries of an array read back its elements. *)
Lemma getOwn_indexed (items : list value) :
  forall j i, getOwn (numberToString (Z.of_nat (j + i))) (indexed j items)
              = nth i items VUndefined.
Proof.
  induction items as [|x tl IH]; intros j i.
  - destruct i; reflexivity.
  - cbn [indexed getOwn]. destruct i as [|i].
    + now rewrite Nat.add_0_r, String.eqb_refl.
    + destruct (String.eqb (numberToString (Z.of_nat j))
                           (numberToString (Z.of_nat (j + S i)))) eqn:E.
      * apply String.eqb_eq in E. apply numberToString_inj in E. lia.
      * replace (j + S i) with (S j + i) by lia. apply IH.
Qed.

Lemma index_key_not_metadata (j : nat) :
  String.eqb (numberToString (Z.of_nat j)) "_metadata" = false.
Proof.
  apply String.eqb_neq. unfold numberToString. intro E.
  destruct (Z.of_nat j) as [|q|q]; [discriminate| |discriminate].
  simpl in E. destruct (Pos.to_uint q); discriminate.
Qed.

Lemma indexed_not_metadata (l : list value) :
  forall j, hasOwn "_metadata" (indexed j l) = false.
Proof.
  induction l as [|x tl IH]; intro j; [reflexivity|].
  cbn [indexed hasOwn]. rewrite index_key_not_metadata. apply IH.
Qed.



(** ** Text converted to JSON (C6) *)

Lemma indexed_length {A : Type} (l : list A) :
  forall j, List.length (indexed j l) = List.length l.
Proof. induction l as [|x tl IH]; intro j; [reflexivity|]. cbn [indexed List.length]. now rewrite IH. Qed.

Lemma indexed_keys {A B : Type} (l : list A) (l' : list B) :
  List.length l = List.length l' ->
  forall j, map fst (indexed j l) = map fst (indexed j l').
Proof.
  revert l'. induction l as [|x tl IH]; intros [|y tl'] H j; try discriminate; [reflexivity|].
  cbn [indexed map fst]. f_equal. apply IH. now injection H.
Qed.

(** C6, as stated, fails: the file written when the text made of the lines
    L1 and L2 is converted from txt to json is not the sequence of the two
    records but one object that holds them under the keys 0 and 1, followed
    by the metadata. *)
Lemma C6_text_to_json_is_an_object :
  parseTextData "T" (VStr ("L1" ++ NL ++ "L2")) = VArr twoLineRecords
  /\ convertAndCreateFile "T" (fun _ => None) (VStr ("L1" ++ NL ++ "L2")) "txt" "json" None
     = Returns (Some (orUndefined
                        (serializeJSON "  " ""
                           (VObj (indexed 0 twoLineRecords ++ [("_metadata", metadata "T")])))))
  /\ convertAndCreateFile "T" (fun _ => None) (VStr ("L1" ++ NL ++ "L2")) "txt" "json" None
     <> Returns (Some (orUndefined (serializeJSON "  " "" (VArr twoLineRecords)))).
Proof.
  split; [reflexivity|]. split; [reflexivity|].
  vm_compute. discriminate.
Qed.

(** C6, amended. Parsing the text [L1], newline, [L2] gives exactly the two
    records numbered 1 and 2; whenever the trimmed text contains a newline,
    [parseTextData] returns the array with one record per line of the trimmed
    text, in order, whose line number counts from 1, whose content is the
    trimmed line and whose character count is the length of the line before
    trimming; and the conversion from txt to json writes these records as the
    fields 0, 1, ... of one object, in that order, followed by the field
    [_metadata]: an object, not an array. *)
Theorem C6_text_to_json :
  (forall now, parseTextData now (VStr ("L1" ++ NL ++ "L2")) = VArr twoLineRecords)
  /\ (forall now t,
        includes lf (trim t) = true ->
        let lines := split lf (trim t) in
        join NL lines = trim t
        /\ exists records,
             parseTextData now (VStr t) = VArr records
             /\ List.length records = List.length lines
             /\ forall i line,
                  nth_error lines i = Some line ->
                  nth_error records i
                  = Some (VObj [("lineNumber", VNum (Z.of_nat i + 1));
                                ("content", VStr (trim line));
                                ("characterCount", VNum (Z.of_nat (String.length line)))]))
  /\ (forall now parse t headers,
        includes lf (trim t) = true ->
        let lines := split lf (trim t) in
        exists final,
          convertAndCreateFile now parse (VStr t) "txt" "json" headers
          = Returns (Some (orUndefined (serializeJSON "  " "" (VObj final))))
          /\ map fst final = (map fst (indexed 0 lines) ++ ["_metadata"])%list
          /\ getOwn "_metadata" final = metadata now
          /\ forall i line,
               nth_error lines i = Some line ->
               getOwn (numberToString (Z.of_nat i)) final
               = VObj [("lineNumber", VNum (Z.of_nat i + 1));
                       ("content", VStr (trim line));
                       ("characterCount", VNum (Z.of_nat (String.length line)))]).
Proof.
  split; [reflexivity|]. split.
  - intros now t H lines. split; [apply join_split|].
    exists (mapIndexed lineRecord 0 lines). repeat split.
    + unfold parseTextData. fold lines.
      pose proof (split_includes_length lf (trim t) H) as L. fold lines in L.
      apply Nat.ltb_lt in L. now rewrite L.
    + apply mapIndexed_length.
    + intros i line Hi. now rewrite (mapIndexed_nth_error lineRecord lines 0 i line Hi).
  - intros now parse t headers H lines.
    assert (P : parseTextData now (VStr t) = VArr (mapIndexed lineRecord 0 lines)).
    { unfold parseTextData. fold lines.
      pose proof (split_includes_length lf (trim t) H) as L. fold lines in L.
      apply Nat.ltb_lt in L. now rewrite L. }
    set (records := mapIndexed lineRecord 0 lines) in *.
    assert (F : finalDataOf now parse (VArr records)
                = (indexed 0 records ++ [("_metadata", metadata now)])%list).
    { unfold finalDataOf, defineOwn. cbn [jsonDataOf ownEntries].
      rewrite indexed_not_metadata. reflexivity. }
    exists (finalDataOf now parse (VArr records)). split; [|split; [|split]].
    + cbn [convertAndCreateFile String.eqb Ascii.eqb Bool.eqb]. rewrite P. reflexivity.
    + rewrite F, map_app. cbn [map fst]. f_equal.
      apply indexed_keys. apply mapIndexed_length.
    + unfold finalDataOf. rewrite getOwn_defineOwn. now rewrite String.eqb_refl.
    + intros i line Hi. unfold finalDataOf. rewrite getOwn_defineOwn.
      rewrite String.eqb_sym, index_key_not_metadata.
      cbn [jsonDataOf ownEntries].
      change i with (0 + i) at 1. rewrite (getOwn_indexed records 0 i).
      pose proof (mapIndexed_nth_error lineRecord lines 0 i line Hi) as N.
      fold records in N. now rewrite (nth_error_nth _ _ VUndefined N).
Qed.

Lemma C6_text_to_json_witness :
  includes lf (trim (" a " ++ NL ++ " bc" ++ NL)) = true
  /\ exists final,
       convertAndCreateFile "T" (fun _ => None) (VStr (" a " ++ NL ++ " bc" ++ NL))
         "txt" "json" None
       = Returns (Some (orUndefined (serializeJSON "  " "" (VObj final))))
       /\ map fst final = ["0"; "1"; "_metadata"].
Proof.
  split; [reflexivity|].
  destruct (proj2 (proj2 C6_text_to_json) "T" (fun _ => None)
              (" a " ++ NL ++ " bc" ++ NL) None eq_refl)
    as (final & E & K & _).
  exists final. split; [exact E | exact K].
Defined.

(** The file written for the two-line text converted from txt to json: the
    two records sit under the keys 0 and 1 of one object, next to the
    metadata. *)
Lemma text_to_json_file (now : string) (parse : string -> option value) (time : Z)
  (rnd : ascii * ascii * ascii * ascii) :
  createFileFromData now parse time rnd (VStr ("L1" ++ NL ++ "L2"))
    {| fileName := Some "lines"; fileType := None; from := Some "txt"; to := Some "json";
       csvHeaders := None |}
  = Returns
      ("lines.json",
       Some (orUndefined
               (serializeJSON "  " ""
                  (VObj [("0", VObj [("lineNumber", VNum 1); ("content", VStr "L1");
                                     ("characterCount", VNum 2)]);
                         ("1", VObj [("lineNumber", VNum 2); ("content", VStr "L2");
                                     ("characterCount", VNum 2)]);
                         ("_metadata", metadata now)])))).
Proof. reflexivity. Qed.

(** ** The quoted-field grammar (C2) *)

Lemma includes_cons_false (c x : ascii) (r : string) :
  includes c (String x r) = false -> Ascii.eqb x c = false /\ includes c r = false.
Proof. simpl. destruct (Ascii.eqb x c); [discriminate | now split]. Qed.

(** An unquoted field: the loop copies it up to the next separator. *)
Lemma parseCsvLoop_plain (s : string) :
  forall tail current result,
    includes comma s = false -> includes dq s = false ->
    parseCsvLoop (s ++ tail) current false result
    = parseCsvLoop tail (current ++ s) false result.
Proof.
  induction s as [|c r IH]; intros tail current result Hc Hq.
  - now rewrite append_empty_r.
  - apply includes_cons_false in Hc. destruct Hc as [Hc Hc'].
    apply includes_cons_false in Hq. destruct Hq as [Hq Hq'].
    cbn [append parseCsvLoop]. rewrite Hq, Hc. cbn [andb].
    rewrite (IH tail _ result Hc' Hq'). now rewrite append_assoc.
Qed.

(** Inside quotes: doubled quotes are read as one, separators are copied,
    and the closing quote ends the quoted state. *)
Lemma parseCsvLoop_quoted_body (s : string) :
  forall tail current result,
    startsWithQuote tail = false ->
    parseCsvLoop (doubleQuotes s ++ DQ ++ tail) current true result
    = parseCsvLoop tail (current ++ s) false result.
Proof.
  induction s as [|c r IH]; intros tail current result Ht.
  - rewrite append_empty_r. cbn [doubleQuotes append DQ parseCsvLoop].
    change (Ascii.eqb dq dq) with true. cbv iota.
    destruct tail as [|next rest']; [reflexivity|].
    simpl in Ht. rewrite Ht. reflexivity.
  - cbn [doubleQuotes]. destruct (Ascii.eqb c dq) eqn:E.
    + apply Ascii.eqb_eq in E. subst c.
      cbn [append parseCsvLoop]. change (Ascii.eqb dq dq) with true. cbn [andb].
      rewrite (IH tail _ result Ht). now rewrite append_assoc.
    + cbn [append parseCsvLoop]. rewrite E. rewrite andb_false_r.
      rewrite (IH tail _ result Ht). now rewrite append_assoc.
Qed.

Lemma parseCsvLoop_quoted (s tail current : string) (result : list string) :
  startsWithQuote tail = false ->
  parseCsvLoop (DQ ++ doubleQuotes s ++ DQ ++ tail) current false result
  = parseCsvLoop tail (current ++ s) false result.
Proof.
  intro Ht. rewrite <- (parseCsvLoop_quoted_body s tail current result Ht).
  cbn [DQ append parseCsvLoop]. change (Ascii.eqb dq dq) with true. cbv iota.
  destruct (doubleQuotes s ++ String dq tail) eqn:E; reflexivity.
Qed.

Lemma needsQuoting_false (s : string) :
  needsQuoting s = false ->
  includes comma s = false /\ includes dq s = false /\ includes lf s = false.
Proof.
  unfold needsQuoting. intro H.
  apply orb_false_elim in H. destruct H as [H H3].
  apply orb_false_elim in H. now destruct H.
Qed.

(** A serialized field followed by the rest of its line. *)
Lemma parseCsvLoop_cell (s tail current : string) (result : list string) :
  startsWithQuote tail = false ->
  parseCsvLoop (csvEscape s ++ tail) current false result
  = parseCsvLoop tail (current ++ s) false result.
Proof.
  intro Ht. unfold csvEscape. destruct (needsQuoting s) eqn:E.
  - rewrite !append_assoc. now apply parseCsvLoop_quoted.
  - apply needsQuoting_false in E. destruct E as (Hc & Hq & _).
    now apply parseCsvLoop_plain.
Qed.

Lemma parseCsvLoop_row (cells : list string) :
  forall cell result,
    parseCsvLoop (join "," (map csvEscape (cell :: cells))) "" false result
    = (result ++ cell :: cells)%list.
Proof.
  induction cells as [|next rest IH]; intros cell result.
  - change (join "," (map csvEscape [cell])) with (csvEscape cell).
    rewrite <- (append_empty_r (csvEscape cell)).
    rewrite parseCsvLoop_cell by reflexivity. reflexivity.
  - cbn [map]. rewrite join_cons. rewrite parseCsvLoop_cell by reflexivity.
    cbn [append parseCsvLoop].
    change (Ascii.eqb "," dq) with false. change (Ascii.eqb "," comma) with true.
    cbn [andb negb]. change (csvEscape next :: map csvEscape rest)
      with (map csvEscape (next :: rest)).
    rewrite IH. now rewrite <- app_assoc.
Qed.

(** The line parser inverts the serialization of a row. *)
Lemma parseCsvLine_row (cells : list string) :
  cells <> [] -> parseCsvLine (join "," (map csvEscape cells)) = cells.
Proof.
  destruct cells as [|cell rest]; [congruence|]. intros _.
  unfold parseCsvLine. now rewrite parseCsvLoop_row.
Qed.

(** ** Tables as text *)

Lemma includes_append (c : ascii) (a b : string) :
  includes c (a ++ b) = includes c a || includes c b.
Proof.
  induction a as [|x r IH]; simpl; [reflexivity|].
  destruct (Ascii.eqb x c); [reflexivity | exact IH].
Qed.

Lemma includes_doubleQuotes (c : ascii) (s : string) :
  Ascii.eqb dq c = false -> includes c (doubleQuotes s) = includes c s.
Proof.
  intro H. induction s as [|x r IH]; [reflexivity|]. cbn [doubleQuotes].
  destruct (Ascii.eqb x dq) eqn:E.
  - apply Ascii.eqb_eq in E. subst x. cbn [includes]. rewrite H. exact IH.
  - cbn [includes]. now rewrite IH.
Qed.

Lemma includes_lf_csvEscape (s : string) : includes lf (csvEscape s) = includes lf s.
Proof.
  unfold csvEscape. destruct (needsQuoting s); [|reflexivity].
  rewrite !includes_append, includes_doubleQuotes by reflexivity.
  simpl. now rewrite orb_false_r.
Qed.

Lemma includes_join (c : ascii) (sep : string) (l : list string) :
  includes c sep = false -> Forall (fun x => includes c x = false) l ->
  includes c (join sep l) = false.
Proof.
  intros Hs H. induction H as [|x l Hx Hl IH]; [reflexivity|].
  destruct l as [|y l']; [exact Hx|].
  rewrite join_cons, !includes_append, Hx, Hs, IH. reflexivity.
Qed.

Lemma split_append_separator (c : ascii) (x rest : string) :
  includes c x = false -> split c (x ++ String c rest) = x :: split c rest.
Proof.
  induction x as [|a r IH]; intro H.
  - simpl. now rewrite Ascii.eqb_refl.
  - apply includes_cons_false in H. destruct H as [Ha Hr].
    cbn [append split]. rewrite Ha, (IH Hr). reflexivity.
Qed.

(** Splitting the join of separator-free lines gives the lines back. *)
Lemma split_join (c : ascii) (l : list string) :
  l <> [] -> Forall (fun x => includes c x = false) l ->
  split c (join (String c "") l) = l.
Proof.
  intros Hne H. induction H as [|x l Hx Hl IH]; [congruence|].
  destruct l as [|y l'].
  - now apply split_without.
  - rewrite join_cons. cbn [append].
    rewrite (split_append_separator c x _ Hx). f_equal. apply IH. discriminate.
Qed.

Lemma concatStrings_cons (a : string) (l : list string) :
  concatStrings (a :: l) = a ++ concatStrings l.
Proof.
  unfold concatStrings. destruct l; cbn [String.concat].
  - now rewrite append_empty_r.
  - reflexivity.
Qed.

Lemma lines_text (x : string) (ls : list string) :
  join NL (x :: ls) ++ NL = x ++ NL ++ concatStrings (map (fun l => l ++ NL) ls).
Proof.
  revert x. induction ls as [|y ls IH]; intro x.
  - reflexivity.
  - rewrite join_cons. cbn [map]. rewrite concatStrings_cons.
    rewrite !append_assoc, <- IH. reflexivity.
Qed.

(** *** Trimming *)

Lemma trimEnd_cons (c : ascii) (r : string) :
  trimEnd (String c r)
  = match trimEnd r with
    | "" => if isWhiteSpace c then "" else String c ""
    | String x y => String c (String x y)
    end.
Proof. reflexivity. Qed.

Lemma trimEnd_fixed (s : string) (d : ascii) :
  lastChar s = Some d -> isWhiteSpace d = false -> trimEnd s = s.
Proof.
  induction s as [|c r IH]; [discriminate|]. intros H Hd.
  destruct r as [|c' r'].
  - injection H as ->. simpl. now rewrite Hd.
  - rewrite trimEnd_cons, (IH H Hd). reflexivity.
Qed.

Lemma trimEnd_append_ws (s : string) (w : ascii) :
  isWhiteSpace w = true -> trimEnd (s ++ String w "") = trimEnd s.
Proof.
  intro H. induction s as [|c r IH].
  - simpl. now rewrite H.
  - cbn [append]. now rewrite !trimEnd_cons, IH.
Qed.

Lemma lastChar_append (s : string) (d : ascii) : lastChar (s ++ String d "") = Some d.
Proof.
  induction s as [|c r IH]; [reflexivity|].
  cbn [append lastChar]. destruct (r ++ String d "") eqn:E; [|exact IH].
  destruct r; discriminate.
Qed.

(** A text that starts and ends with characters that are not white space,
    followed by a newline, is trimmed to itself. *)
Lemma trim_line_end (c d : ascii) (body : string) :
  isWhiteSpace c = false -> isWhiteSpace d = false ->
  lastChar (String c body) = Some d ->
  trim (String c body ++ NL) = String c body.
Proof.
  intros Hc Hd Hl. unfold trim. cbn [append trimStart]. rewrite Hc.
  change (String c (body ++ NL)) with (String c body ++ String lf "").
  rewrite trimEnd_append_ws by reflexivity.
  exact (trimEnd_fixed _ d Hl Hd).
Qed.

(** *** Row objects *)

Lemma getOwn_assign (k k' : string) (v : value) (fs : list (string * value)) :
  String.eqb k' "__proto__" = false ->
  getOwn k (assign k' v fs) = if String.eqb k' k then v else getOwn k fs.
Proof. intro H. unfold assign. rewrite H. apply getOwn_defineOwn. Qed.

Lemma rowObjectFrom_other (vals hs : list string) (k : string) :
  ~ In k hs ->
  forall j obj, getOwn k (rowObjectFrom j hs vals obj) = getOwn k obj.
Proof.
  induction hs as [|h tl IH]; intros Hk j obj; [reflexivity|].
  cbn [rowObjectFrom]. rewrite IH by (intro; apply Hk; now right).
  unfold assign. destruct (String.eqb h "__proto__"); [reflexivity|].
  rewrite getOwn_defineOwn. destruct (String.eqb h k) eqn:E; [|reflexivity].
  apply String.eqb_eq in E. exfalso. apply Hk. now left.
Qed.

(** Each header of a duplicate-free header list reads the field at its own
    position. *)
Lemma rowObjectFrom_at (vals hs : list string) :
  NoDup hs -> ~ In "__proto__" hs ->
  forall i h j obj,
    nth_error hs i = Some h ->
    getOwn h (rowObjectFrom j hs vals obj) = VStr (fieldAt vals (j + i)).
Proof.
  induction hs as [|x tl IH]; intros Hd Hp i h j obj Hi.
  - destruct i; discriminate.
  - inversion Hd as [|? ? Hx Htl]; subst.
    destruct i as [|i]; cbn [nth_error rowObjectFrom] in *.
    + injection Hi as ->. rewrite rowObjectFrom_other by exact Hx.
      rewrite getOwn_assign, String.eqb_refl, Nat.add_0_r; [reflexivity|].
      apply String.eqb_neq. intro E. apply Hp. now left.
    + rewrite (IH Htl (fun H => Hp (or_intror H)) i h (S j) _ Hi).
      f_equal. f_equal. lia.
Qed.

Lemma getNestedValue_own (fs : list (string * value)) (h : string) :
  includes dot h = false -> getNestedValue (VObj fs) h = getOwn h fs.
Proof. intro H. unfold getNestedValue. now rewrite (split_without dot h H). Qed.

Lemma csvRow_rowObject (hs r : list string) :
  NoDup hs -> ~ In "__proto__" hs -> Forall (fun h => includes dot h = false) hs ->
  List.length r = List.length hs ->
  csvRow hs (VObj (rowObjectFrom 0 hs r [])) = rowLine r ++ NL.
Proof.
  intros Hd Hp Hdot Hlen. unfold csvRow, rowLine. f_equal. f_equal.
  apply (nth_ext _ _ (csvCell (getNestedValue (VObj (rowObjectFrom 0 hs r [])) ""))
           (csvEscape "")).
  - now rewrite !length_map.
  - intros n Hn. rewrite length_map in Hn.
    rewrite (map_nth (fun h => csvCell (getNestedValue (VObj (rowObjectFrom 0 hs r [])) h))).
    rewrite (map_nth csvEscape).
    assert (Hin : In (nth n hs "") hs) by now apply nth_In.
    rewrite getNestedValue_own by exact (proj1 (Forall_forall _ hs) Hdot _ Hin).
    rewrite (rowObjectFrom_at r hs Hd Hp n (nth n hs "") 0 [])
      by now apply nth_error_nth'.
    reflexivity.
Qed.

(** Serializing row objects under their own headers lays the table out. *)
Lemma createCsvFile_tableRows (hs : list string) (rows : list (list string)) :
  NoDup hs -> ~ In "__proto__" hs -> Forall (fun h => includes dot h = false) hs ->
  rows <> [] -> Forall (fun r => List.length r = List.length hs) rows ->
  createCsvFile (VArr (tableRows hs rows)) (Some hs) = Returns (tableText hs rows).
Proof.
  intros Hd Hp Hdot Hne Hlen.
  assert (E : map (csvRow hs) (tableRows hs rows) = map (fun l => l ++ NL) (map rowLine rows)).
  { unfold tableRows. rewrite !map_map. apply map_ext_in. intros r Hr.
    apply csvRow_rowObject; try assumption.
    exact (proj1 (Forall_forall _ rows) Hlen r Hr). }
  unfold tableText, tableBody. rewrite lines_text, <- E.
  destruct rows as [|r rs]; [congruence|]. reflexivity.
Qed.

Lemma csvEscape_plain (s : string) : plainField s = true -> csvEscape s = s.
Proof.
  unfold plainField, csvEscape. destruct (needsQuoting s); [discriminate | reflexivity].
Qed.

Lemma map_csvEscape_plain (l : list string) :
  Forall (fun s => plainField s = true) l -> map csvEscape l = l.
Proof.
  intro H. induction H as [|x l Hx Hl IH]; [reflexivity|].
  cbn [map]. now rewrite (csvEscape_plain x Hx), IH.
Qed.

Lemma plainField_no_lf (s : string) : plainField s = true -> includes lf s = false.
Proof.
  unfold plainField. intro H. apply negb_true_iff in H.
  now apply needsQuoting_false in H.
Qed.

(** Parsing the text of a table whose header names need no quoting and whose
    fields hold no newline gives the rows back, keyed by the header line. *)
Lemma parseCsvData_tableText (hs : list string) (rows : list (list string)) :
  hs <> [] -> Forall (fun h => plainField h = true) hs ->
  Forall (fun r => r <> [] /\ Forall (fun c => includes lf c = false) r) rows ->
  trim (tableText hs rows) = tableBody hs rows ->
  split lf (trim (tableText hs rows)) = join "," hs :: map rowLine rows
  /\ parseCsvLine (join "," hs) = hs
  /\ parseCsvData (VStr (tableText hs rows)) None = Returns (tableRows hs rows).
Proof.
  intros Hne Hplain Hrows Htrim.
  assert (Hsplit : split lf (trim (tableText hs rows)) = join "," hs :: map rowLine rows).
  { rewrite Htrim. unfold tableBody. apply split_join; [discriminate|].
    constructor.
    - apply includes_join; [reflexivity|].
      eapply Forall_impl; [|exact Hplain]. intros h Hh. now apply plainField_no_lf.
    - apply Forall_forall. intros line Hin. apply in_map_iff in Hin.
      destruct Hin as (r & <- & Hr).
      destruct (proj1 (Forall_forall _ rows) Hrows r Hr) as [_ Hc].
      apply includes_join; [reflexivity|].
      apply Forall_forall. intros cell Hcell. apply in_map_iff in Hcell.
      destruct Hcell as (c & <- & Hin). rewrite includes_lf_csvEscape.
      exact (proj1 (Forall_forall _ r) Hc c Hin). }
  assert (Hhead : parseCsvLine (join "," hs) = hs).
  { rewrite <- (map_csvEscape_plain hs Hplain) at 1. now apply parseCsvLine_row. }
  split; [exact Hsplit|]. split; [exact Hhead|].
  unfold parseCsvData. rewrite Hsplit. cbn [List.length Nat.eqb hd tl].
  rewrite Hhead. f_equal. unfold tableRows. rewrite map_map. apply map_ext_in.
  intros r Hr. unfold rowObject. fold (rowLine r).
  destruct (proj1 (Forall_forall _ rows) Hrows r Hr) as [Hr' _].
  unfold rowLine. now rewrite (parseCsvLine_row r Hr').
Qed.

(** *** Column names *)

Lemma columnName_facts (h : string) :
  columnName h = true ->
  plainField h = true /\ includes dot h = false /\ h <> "__proto__".
Proof.
  unfold columnName. intro H.
  apply andb_true_iff in H. destruct H as [H H3].
  apply andb_true_iff in H. destruct H as [H1 H2].
  apply negb_true_iff in H2. apply negb_true_iff in H3.
  repeat split; try assumption. now apply String.eqb_neq.
Qed.

Lemma distinct_NoDup (l : list string) : distinct l = true -> NoDup l.
Proof.
  induction l as [|x tl IH]; intro H; [constructor|].
  cbn [distinct] in H. apply andb_true_iff in H. destruct H as [Hx Htl].
  constructor; [|now apply IH].
  intro Hin. apply negb_true_iff in Hx.
  assert (E : existsb (String.eqb x) tl = true).
  { apply existsb_exists. exists x. split; [exact Hin | apply String.eqb_refl]. }
  congruence.
Qed.

Lemma append_cancel_r (a b : string) (c : ascii) :
  a ++ String c "" = b ++ String c "" -> a = b.
Proof.
  revert b. induction a as [|x r IH]; intros [|y q] H; cbn [append] in H.
  - reflexivity.
  - injection H as _ H. destruct q; discriminate.
  - injection H as _ H. destruct r; discriminate.
  - injection H as -> H. f_equal. now apply IH.
Qed.

(** ** C2: the round trip of quoted fields *)

(** C2, as stated, fails for a field that holds a newline: the field is
    written in quotes, but [parseCsvData] splits the text at every newline
    before any quote is read, so the field comes back as two rows. *)
Lemma C2_newline_field_not_recovered :
  needsQuoting brokenField = true
  /\ createCsvFile (VArr [VObj [("x", VStr brokenField)]]) None
     = Returns ("x" ++ NL ++ DQ ++ "a" ++ NL ++ "b" ++ DQ ++ NL)
  /\ parseCsvData (VStr ("x" ++ NL ++ DQ ++ "a" ++ NL ++ "b" ++ DQ ++ NL)) None
     = Returns [VObj [("x", VStr "a")]; VObj [("x", VStr "b")]]
  /\ parseCsvData (VStr ("x" ++ NL ++ DQ ++ "a" ++ NL ++ "b" ++ DQ ++ NL)) None
     <> Returns [VObj [("x", VStr brokenField)]].
Proof.
  split; [reflexivity|]. split; [reflexivity|]. split; [reflexivity|].
  vm_compute. discriminate.
Qed.

Lemma single_cell_row (h s : string) :
  h <> "__proto__" -> tableRows [h] [[s]] = [VObj [(h, VStr s)]].
Proof.
  intro H. apply String.eqb_neq in H. unfold tableRows. cbn [map rowObjectFrom].
  unfold assign. rewrite H. unfold defineOwn. cbn [hasOwn fieldAt nth].
  destruct (arrayIndex h); reflexivity.
Qed.

(** C2, amended. A field that holds a comma, a double quote or a newline is
    written between double quotes with its quotes doubled, and the line
    parser [parseCsvLine] reads the written field, and any written row, back
    exactly.  Through [parseCsvData] the field is recovered when it holds no
    newline: a one-column table with such a field, written with its header
    given explicitly, or without a header list when the header is not
    [hasOwnProperty] (an own key of that name shadows the method that
    [flattenObject] calls), is a header line and a quoted line, and parsing
    that text gives the table back. *)
Theorem C2_quote_escaping_round_trip :
  (forall s,
      needsQuoting s = true ->
      csvCell (VStr s) = DQ ++ doubleQuotes s ++ DQ
      /\ parseCsvLine (csvCell (VStr s)) = [s])
  /\ (forall cells, cells <> [] -> parseCsvLine (join "," (map csvEscape cells)) = cells)
  /\ (forall h s headers,
        columnName h = true -> startsClean h = true ->
        needsQuoting s = true -> includes lf s = false ->
        headers = Some [h] \/ (headers = None /\ h <> "hasOwnProperty") ->
        createCsvFile (VArr [VObj [(h, VStr s)]]) headers
        = Returns (h ++ NL ++ DQ ++ doubleQuotes s ++ DQ ++ NL)
        /\ parseCsvData (VStr (h ++ NL ++ DQ ++ doubleQuotes s ++ DQ ++ NL)) None
           = Returns [VObj [(h, VStr s)]]).
Proof.
  split; [|split].
  - intros s H.
    assert (E : csvCell (VStr s) = csvEscape s) by reflexivity.
    rewrite E. split.
    + unfold csvEscape. now rewrite H.
    + apply (parseCsvLine_row [s]). discriminate.
  - exact parseCsvLine_row.
  - intros h s headers Hh Hc Hq Hlf Hheaders.
    destruct (columnName_facts h Hh) as (Hplain & Hdot & Hproto).
    assert (Etext : tableText [h] [[s]] = h ++ NL ++ DQ ++ doubleQuotes s ++ DQ ++ NL).
    { unfold tableText, tableBody, rowLine. cbn [map]. unfold join. cbn [String.concat].
      unfold csvEscape. rewrite Hq. now rewrite !append_assoc. }
    split.
    + rewrite <- Etext, <- (single_cell_row h s Hproto).
      assert (Ehs : extractHeadersFromObjects (tableRows [h] [[s]]) = [h]).
      { rewrite (single_cell_row h s Hproto). reflexivity. }
      rewrite <- (createCsvFile_tableRows [h] [[s]]).
      * destruct Hheaders as [->|[-> _]]; [reflexivity|].
        rewrite (single_cell_row h s Hproto). unfold createCsvFile.
        cbn [typeofObject isArray andb negb].
        rewrite <- (single_cell_row h s Hproto), Ehs. reflexivity.
      * constructor; [intros [] | constructor].
      * intros [E|[]]. now apply Hproto.
      * constructor; [exact Hdot | constructor].
      * discriminate.
      * constructor; [reflexivity | constructor].
    + rewrite <- Etext, <- (single_cell_row h s Hproto).
      apply (parseCsvData_tableText [h] [[s]]).
      * discriminate.
      * constructor; [exact Hplain | constructor].
      * constructor; [|constructor]. split; [discriminate|].
        constructor; [exact Hlf | constructor].
      * unfold tableText. destruct h as [|c r]; [discriminate|].
        unfold startsClean in Hc. apply negb_true_iff in Hc.
        assert (Ebody : tableBody [String c r] [[s]]
                        = String c (r ++ NL ++ DQ ++ doubleQuotes s) ++ String dq "").
        { unfold tableBody, rowLine. cbn [map]. unfold join. cbn [String.concat].
          unfold csvEscape. rewrite Hq. cbn [append]. f_equal.
          now rewrite !append_assoc. }
        rewrite Ebody. cbn [append].
        apply (trim_line_end c dq); [exact Hc | reflexivity |].
        change (String c ((r ++ NL ++ DQ ++ doubleQuotes s) ++ String dq ""))
          with (String c (r ++ NL ++ DQ ++ doubleQuotes s) ++ String dq "").
        apply lastChar_append.
Qed.

Lemma C2_quote_escaping_round_trip_witness :
  let s := "say " ++ DQ ++ "hi" ++ DQ ++ ", then go" in
  needsQuoting s = true
  /\ parseCsvLine (csvCell (VStr s)) = [s]
  /\ parseCsvData (VStr ("note" ++ NL ++ DQ ++ doubleQuotes s ++ DQ ++ NL)) None
     = Returns [VObj [("note", VStr s)]].
Proof.
  intro s. split; [reflexivity|]. split.
  - apply (proj1 C2_quote_escaping_round_trip s). reflexivity.
  - apply (proj2 (proj2 C2_quote_escaping_round_trip) "note" s None);
      try reflexivity.
    right. split; [reflexivity | discriminate].
Defined.

(** ** C3: parsing and writing again *)

(** C3, as stated, fails: a text whose last line has no newline comes back
    with one, since the parser trims the text and the serializer ends every
    line with a newline. *)
Lemma C3_final_newline_added :
  parseCsvLine "a,b" = ["a"; "b"]
  /\ parseCsvData (VStr unterminated) None = Returns [VObj [("a", VStr "1"); ("b", VStr "2")]]
  /\ createCsvFile (VArr [VObj [("a", VStr "1"); ("b", VStr "2")]]) (Some ["a"; "b"])
     = Returns (unterminated ++ NL)
  /\ createCsvFile (VArr [VObj [("a", VStr "1"); ("b", VStr "2")]]) (Some ["a"; "b"])
     <> Returns unterminated.
Proof.
  split; [reflexivity|]. split; [reflexivity|]. split; [reflexivity|].
  vm_compute. discriminate.
Qed.

(** What else the text must satisfy: a text with no data line is written
    back as the placeholder, a short row is padded, a repeated header keeps
    the last field, and a header with a dot reads nothing. *)
Lemma reserialize_irregular_texts :
  (parseCsvData (VStr ("a,b" ++ NL)) None = Returns []
   /\ createCsvFile (VArr []) (Some ["a"; "b"]) = Returns "No data")
  /\ (parseCsvData (VStr ("a,b" ++ NL ++ "1" ++ NL)) None
      = Returns [VObj [("a", VStr "1"); ("b", VStr "")]]
      /\ createCsvFile (VArr [VObj [("a", VStr "1"); ("b", VStr "")]]) (Some ["a"; "b"])
         = Returns ("a,b" ++ NL ++ "1," ++ NL))
  /\ (parseCsvData (VStr ("a,a" ++ NL ++ "1,2" ++ NL)) None = Returns [VObj [("a", VStr "2")]]
      /\ createCsvFile (VArr [VObj [("a", VStr "2")]]) (Some ["a"; "a"])
         = Returns ("a,a" ++ NL ++ "2,2" ++ NL))
  /\ (parseCsvData (VStr ("a.b" ++ NL ++ "1" ++ NL)) None = Returns [VObj [("a.b", VStr "1")]]
      /\ createCsvFile (VArr [VObj [("a.b", VStr "1")]]) (Some ["a.b"])
         = Returns ("a.b" ++ NL ++ NL)).
Proof. repeat split. Qed.

Lemma csvSource_tableText (hs : list string) (rows : list (list string)) :
  Forall (fun r => Forall (fun c => plainField c = true) r) rows ->
  csvSource hs rows = tableText hs rows.
Proof.
  intro H. unfold csvSource, tableText, tableBody. rewrite lines_text, map_map.
  f_equal. f_equal. f_equal. apply map_ext_in. intros r Hr.
  unfold rowLine. now rewrite (map_csvEscape_plain r (proj1 (Forall_forall _ rows) H r Hr)).
Qed.

(** C3, amended. Let [s] be a header line and at least one data line, each
    ended by a newline, such that no field needs quoting, the header names
    are distinct, hold no dot and are not [__proto__], every data line has as
    many fields as the header line, and [s] is its own trimmed text followed
    by its final newline.  Then parsing [s] with the headers read from the
    first line and serializing the table under those headers gives [s]. *)
Theorem C3_parse_then_serialize (hs : list string) (rows : list (list string)) :
  hs <> [] -> forallb columnName hs = true -> distinct hs = true ->
  rows <> [] -> forallb (regularRow (List.length hs)) rows = true ->
  let s := csvSource hs rows in
  trim s ++ NL = s ->
  exists table,
    parseCsvData (VStr s) None = Returns table
    /\ parseCsvLine (hd "" (split lf (trim s))) = hs
    /\ createCsvFile (VArr table) (Some (parseCsvLine (hd "" (split lf (trim s))))) = Returns s.
Proof.
  intros Hhs Hcols Hdist Hrows Hreg s Htrim.
  assert (Hfacts : forall h, In h hs ->
            plainField h = true /\ includes dot h = false /\ h <> "__proto__").
  { intros h Hin. apply columnName_facts. exact (proj1 (forallb_forall _ hs) Hcols h Hin). }
  assert (Hrow : forall r, In r rows ->
            List.length r = List.length hs /\ Forall (fun c => plainField c = true) r).
  { intros r Hin. pose proof (proj1 (forallb_forall _ rows) Hreg r Hin) as H.
    unfold regularRow in H. apply andb_true_iff in H. destruct H as [H1 H2].
    split; [now apply Nat.eqb_eq | apply Forall_forall; exact (proj1 (forallb_forall _ r) H2)]. }
  assert (Etext : s = tableText hs rows).
  { apply csvSource_tableText. apply Forall_forall. intros r Hin. exact (proj2 (Hrow r Hin)). }
  assert (Hbody : trim (tableText hs rows) = tableBody hs rows).
  { rewrite Etext in Htrim. unfold tableText in Htrim at 2.
    exact (append_cancel_r _ _ lf Htrim). }
  destruct (parseCsvData_tableText hs rows) as (Hsplit & Hhead & Hparse).
  - exact Hhs.
  - apply Forall_forall. intros h Hin. exact (proj1 (Hfacts h Hin)).
  - apply Forall_forall. intros r Hin. destruct (Hrow r Hin) as [Hlen Hplain]. split.
    + intro E. subst r. destruct hs; [congruence | discriminate].
    + eapply Forall_impl; [|exact Hplain]. intros c Hc. now apply plainField_no_lf.
  - exact Hbody.
  - exists (tableRows hs rows). rewrite Etext, Hsplit. cbn [hd]. rewrite Hhead.
    split; [exact Hparse|]. split; [reflexivity|].
    apply createCsvFile_tableRows.
    + now apply distinct_NoDup.
    + intro Hin. exact (proj2 (proj2 (Hfacts _ Hin)) eq_refl).
    + apply Forall_forall. intros h Hin. exact (proj1 (proj2 (Hfacts h Hin))).
    + exact Hrows.
    + apply Forall_forall. intros r Hin. exact (proj1 (Hrow r Hin)).
Qed.

Lemma C3_parse_then_serialize_witness :
  let s := "id,name" ++ NL ++ "1,John" ++ NL ++ "2,Jane" ++ NL in
  exists table,
    parseCsvData (VStr s) None = Returns table
    /\ parseCsvLine (hd "" (split lf (trim s))) = ["id"; "name"]
    /\ createCsvFile (VArr table) (Some (parseCsvLine (hd "" (split lf (trim s))))) = Returns s.
Proof.
  apply (C3_parse_then_serialize ["id"; "name"] [["1"; "John"]; ["2"; "Jane"]]);
    try reflexivity; discriminate.
Defined.

(** * Further properties of the engine *)

(** ** The line parser *)

Lemma parseCsvLoop_no_quotes (line : string) :
  forall current result,
    includes dq line = false ->
    parseCsvLoop line current false result
    = (result ++ match split comma line with
                 | h :: t => (current ++ h)%string :: t
                 | [] => [current]
                 end)%list.
Proof.
  induction line as [|c r IH]; intros current result H.
  - cbn [parseCsvLoop split]. now rewrite append_empty_r.
  - apply includes_cons_false in H. destruct H as [Hc Hr].
    cbn [parseCsvLoop split]. rewrite Hc.
    destruct (Ascii.eqb c comma) eqn:E; cbn [andb negb].
    + rewrite (IH "" _ Hr), append_empty_r, <- app_assoc. cbn [app].
      destruct (split comma r) eqn:S; [now apply split_not_nil in S | reflexivity].
    + rewrite (IH _ result Hr).
      destruct (split comma r) eqn:S; [now apply split_not_nil in S|].
      now rewrite append_assoc.
Qed.

(** X1. On a line without double quotes the line parser is the split at
    commas. *)
Theorem parseCsvLine_without_quotes (line : string) :
  includes dq line = false -> parseCsvLine line = split comma line.
Proof.
  intro H. unfold parseCsvLine. rewrite (parseCsvLoop_no_quotes line "" [] H).
  destruct (split comma line) eqn:S; [now apply split_not_nil in S | reflexivity].
Qed.

Lemma parseCsvLine_without_quotes_witness :
  includes dq "1,,John Smith," = false
  /\ parseCsvLine "1,,John Smith," = ["1"; ""; "John Smith"; ""].
Proof.
  split; [reflexivity|].
  rewrite (parseCsvLine_without_quotes "1,,John Smith,"); reflexivity.
Defined.

Lemma parseCsvLoop_count (n : nat) :
  forall line current inQuotes result,
    String.length line <= n ->
    List.length result + 1 <= List.length (parseCsvLoop line current inQuotes result)
    /\ List.length (parseCsvLoop line current inQuotes result)
       <= List.length result + 1 + countChar comma line.
Proof.
  induction n as [|n IH]; intros line current inQuotes result Hn.
  - destruct line; [|simpl in Hn; lia]. cbn [parseCsvLoop countChar].
    rewrite length_app. simpl. lia.
  - destruct line as [|c r].
    + cbn [parseCsvLoop countChar]. rewrite length_app. simpl. lia.
    + cbn [String.length] in Hn. cbn [parseCsvLoop countChar].
      destruct (Ascii.eqb c dq) eqn:Eq.
      * assert (Ec : Ascii.eqb c comma = false).
        { apply Ascii.eqb_eq in Eq. subst c. reflexivity. }
        rewrite Ec. cbn [Nat.add].
        destruct r as [|next rest'].
        -- cbn [parseCsvLoop countChar]. rewrite length_app. simpl. lia.
        -- destruct (inQuotes && Ascii.eqb next dq) eqn:Eesc.
           ++ apply andb_true_iff in Eesc. destruct Eesc as [_ En].
              apply Ascii.eqb_eq in En. subst next.
              cbn [String.length] in Hn.
              destruct (IH rest' (current ++ DQ) inQuotes result ltac:(lia)) as [L U].
              cbn [countChar]. change (Ascii.eqb dq comma) with false. cbn [Nat.add].
              split; [exact L | exact U].
           ++ exact (IH (String next rest') current (negb inQuotes) result ltac:(lia)).
      * destruct (Ascii.eqb c comma && negb inQuotes) eqn:Esep.
        -- apply andb_true_iff in Esep. destruct Esep as [Ec _]. rewrite Ec.
           destruct (IH r "" inQuotes (result ++ [current])%list ltac:(lia)) as [L U].
           rewrite length_app in L, U. simpl in L, U. split; lia.
        -- destruct (IH r (current ++ String c "") inQuotes result ltac:(lia)) as [L U].
           split; [exact L|]. destruct (Ascii.eqb c comma); lia.
Qed.

(** X2. The line parser returns at least one field and at most one more
    than the line has commas; in particular a line without comma is one
    field, whatever its quotes. *)
Theorem parseCsvLine_field_count (line : string) :
  1 <= List.length (parseCsvLine line)
  /\ List.length (parseCsvLine line) <= 1 + countChar comma line.
Proof.
  unfold parseCsvLine.
  destruct (parseCsvLoop_count (String.length line) line "" false [] (le_n _)) as [L U].
  simpl in L, U. split; lia.
Qed.

(** ** The rows built by the table parser *)

Lemma hasOwn_keys (k : string) (fs : list (string * value)) :
  hasOwn k fs = true <-> In k (map fst fs).
Proof.
  induction fs as [|[k' v'] tl IH]; simpl; [split; [discriminate | tauto]|].
  destruct (String.eqb k' k) eqn:E.
  - apply String.eqb_eq in E. split; [now left | reflexivity].
  - apply String.eqb_neq in E. rewrite IH. split; [now right | intros [H|H]; congruence].
Qed.

Lemma keys_insertIndexed (n : N) (k : string) (v : value) (fs : list (string * value)) :
  forall x, In x (map fst (insertIndexed n k v fs)) <-> x = k \/ In x (map fst fs).
Proof.
  induction fs as [|[k1 v1] tl IH]; intro x; simpl; [intuition congruence|].
  destruct (arrayIndex k1) as [m|]; [destruct (N.ltb n m)|]; simpl;
    try rewrite IH; intuition congruence.
Qed.

Lemma nodup_insertIndexed (n : N) (k : string) (v : value) (fs : list (string * value)) :
  ~ In k (map fst fs) -> NoDup (map fst fs) -> NoDup (map fst (insertIndexed n k v fs)).
Proof.
  induction fs as [|[k1 v1] tl IH]; intros Hk Hd; simpl.
  - constructor; [intros [] | constructor].
  - simpl in Hk, Hd. inversion Hd as [|? ? H1 H2]; subst.
    destruct (arrayIndex k1) as [m|]; [destruct (N.ltb n m)|]; simpl;
      try (constructor; [exact Hk | exact Hd]).
    constructor.
    + rewrite keys_insertIndexed. intros [E|E]; [apply Hk; now left | contradiction].
    + apply IH; [tauto | exact H2].
Qed.

Lemma nodup_snoc (k : string) (l : list string) :
  ~ In k l -> NoDup l -> NoDup (l ++ [k])%list.
Proof.
  induction l as [|x tl IH]; intros Hk Hd; simpl.
  - constructor; [intros [] | constructor].
  - inversion Hd as [|? ? H1 H2]; subst. constructor.
    + rewrite in_app_iff. simpl. intros [E|[E|[]]]; [contradiction | apply Hk; now left].
    + apply IH; [intro E; apply Hk; now right | exact H2].
Qed.

(** Defining a property keeps the keys distinct and adds at most its key. *)
Lemma keys_defineOwn (k : string) (v : value) (fs : list (string * value)) :
  (forall x, In x (map fst (defineOwn k v fs)) <-> x = k \/ In x (map fst fs))
  /\ (NoDup (map fst fs) -> NoDup (map fst (defineOwn k v fs))).
Proof.
  unfold defineOwn. destruct (hasOwn k fs) eqn:H.
  - rewrite keys_replaceOwn. apply hasOwn_keys in H. split; [|tauto].
    intro x. split; [now right | intros [->|E]; assumption].
  - assert (Hk : ~ In k (map fst fs)).
    { intro E. apply hasOwn_keys in E. congruence. }
    destruct (arrayIndex k) as [n|].
    + split; [apply keys_insertIndexed | now apply nodup_insertIndexed].
    + rewrite map_app. simpl. split.
      * intro x. rewrite in_app_iff. simpl. intuition congruence.
      * now apply nodup_snoc.
Qed.

Lemma entries_replaceOwn (k : string) (v : value) (fs : list (string * value)) :
  forall kv, In kv (replaceOwn k v fs) -> kv = (k, v) \/ In kv fs.
Proof.
  induction fs as [|[k1 v1] tl IH]; intros kv; simpl; [tauto|].
  destruct (String.eqb k1 k) eqn:E; simpl.
  - apply String.eqb_eq in E. subst k1. intuition congruence.
  - intros [H|H]; [now right; left | destruct (IH kv H); tauto].
Qed.

Lemma entries_insertIndexed (n : N) (k : string) (v : value) (fs : list (string * value)) :
  forall kv, In kv (insertIndexed n k v fs) -> kv = (k, v) \/ In kv fs.
Proof.
  induction fs as [|[k1 v1] tl IH]; intros kv; simpl; [intuition congruence|].
  destruct (arrayIndex k1) as [m|]; [destruct (N.ltb n m)|]; simpl;
    try (intuition congruence).
  intros [H|H]; [now right; left | destruct (IH kv H); tauto].
Qed.

Lemma entries_defineOwn (k : string) (v : value) (fs : list (string * value)) :
  forall kv, In kv (defineOwn k v fs) -> kv = (k, v) \/ In kv fs.
Proof.
  intro kv. unfold defineOwn. destruct (hasOwn k fs).
  - apply entries_replaceOwn.
  - destruct (arrayIndex k).
    + apply entries_insertIndexed.
    + rewrite in_app_iff. simpl. intuition congruence.
Qed.

Lemma length_defineOwn (k : string) (v : value) (fs : list (string * value)) :
  List.length (defineOwn k v fs) <= S (List.length fs).
Proof.
  unfold defineOwn. destruct (hasOwn k fs).
  - induction fs as [|[k1 v1] tl IH]; simpl; [lia|].
    destruct (String.eqb k1 k); simpl; lia.
  - destruct (arrayIndex k) as [n|].
    + induction fs as [|[k1 v1] tl IH]; simpl; [lia|].
      destruct (arrayIndex k1) as [m|]; [destruct (N.ltb n m)|]; simpl; lia.
    + rewrite length_app. simpl. lia.
Qed.

(** What a row object holds, whatever the headers and the line. *)
Lemma rowObjectFrom_shape (all vals : list string) (hs : list string) :
  incl hs all ->
  forall j obj,
    NoDup (map fst obj) ->
    (forall k v, In (k, v) obj -> In k all /\ k <> "__proto__" /\ exists s, v = VStr s) ->
    let fs := rowObjectFrom j hs vals obj in
    NoDup (map fst fs)
    /\ List.length fs <= List.length obj + List.length hs
    /\ (forall k v, In (k, v) fs -> In k all /\ k <> "__proto__" /\ exists s, v = VStr s)
    /\ (forall h, (In h hs \/ In h (map fst obj)) -> h <> "__proto__" -> In h (map fst fs)).
Proof.
  induction hs as [|h tl IH]; intros Hincl j obj Hd Hobj; cbn [rowObjectFrom].
  - split; [exact Hd|]. split; [simpl; lia|]. split; [exact Hobj|].
    intros h [[]|Hh] _; exact Hh.
  - assert (Htl : incl tl all) by (intros x Hx; apply Hincl; now right).
    set (obj' := assign h (VStr (fieldAt vals j)) obj).
    assert (Hd' : NoDup (map fst obj')).
    { unfold obj', assign. destruct (String.eqb h "__proto__"); [exact Hd|].
      now apply keys_defineOwn. }
    assert (Hobj' : forall k v, In (k, v) obj' ->
                      In k all /\ k <> "__proto__" /\ exists s, v = VStr s).
    { intros k v Hin. unfold obj', assign in Hin.
      destruct (String.eqb h "__proto__") eqn:E; [now apply Hobj|].
      apply entries_defineOwn in Hin. destruct Hin as [Hin|Hin]; [|now apply Hobj].
      injection Hin as -> ->. repeat split.
      - apply Hincl. now left.
      - now apply String.eqb_neq.
      - eauto. }
    assert (Hlen : List.length obj' <= S (List.length obj)).
    { unfold obj', assign. destruct (String.eqb h "__proto__"); [lia|].
      apply length_defineOwn. }
    destruct (IH Htl (S j) obj' Hd' Hobj') as (N1 & N2 & N3 & N4).
    split; [exact N1|]. split; [cbn [List.length]; lia|]. split; [exact N3|].
    intros x Hx Hp. apply N4; [|exact Hp].
    {
      destruct Hx as [[Hx|Hx]|Hx].
      * subst x. right. unfold obj', assign.
        rewrite (proj2 (String.eqb_neq _ _) Hp). apply keys_defineOwn. now left.
      * now left.
      * right. unfold obj', assign. destruct (String.eqb h "__proto__"); [exact Hx|].
        apply keys_defineOwn. now right. }
Qed.

Lemma parseCsvData_rows (csv : string) (headers : option (list string)) :
  parseCsvData (VStr csv) headers
  = Returns (map (rowObject (headersIn csv headers)) (dataLines csv headers)).
Proof.
  unfold parseCsvData, headersIn, dataLines.
  destruct (split lf (trim csv)) as [|l ls] eqn:S; [now apply split_not_nil in S|].
  destruct headers; reflexivity.
Qed.

(** X3. Rows are keyed by position: when the headers are distinct and none
    is [__proto__], row [i] holds under header [j] the [j]-th field of data
    line [i], or the empty string when that line has fewer fields. *)
Theorem parseCsvData_positional (csv : string) (headers : option (list string)) :
  NoDup (headersIn csv headers) -> ~ In "__proto__" (headersIn csv headers) ->
  exists rows,
    parseCsvData (VStr csv) headers = Returns rows
    /\ forall i line j h,
         nth_error (dataLines csv headers) i = Some line ->
         nth_error (headersIn csv headers) j = Some h ->
         exists fs,
           nth_error rows i = Some (VObj fs)
           /\ getOwn h fs = VStr (nth j (parseCsvLine line) "").
Proof.
  intros Hd Hp. eexists. split; [apply parseCsvData_rows|].
  intros i line j h Hi Hj. eexists. split.
  - rewrite nth_error_map, Hi. reflexivity.
  - exact (rowObjectFrom_at (parseCsvLine line) _ Hd Hp j h 0 [] Hj).
Qed.

Lemma parseCsvData_positional_witness :
  exists rows,
    parseCsvData (VStr ("id,name,email" ++ NL ++ "7,Ann")) None = Returns rows
    /\ exists fs,
         nth_error rows 0 = Some (VObj fs)
         /\ getOwn "email" fs = VStr (nth 2 (parseCsvLine "7,Ann") "").
Proof.
  destruct (parseCsvData_positional ("id,name,email" ++ NL ++ "7,Ann") None)
    as (rows & E & H).
  - vm_compute. repeat constructor; simpl; intuition discriminate.
  - vm_compute. intuition discriminate.
  - exists rows. split; [exact E|].
    exact (H 0 "7,Ann" 2 "email" eq_refl eq_refl).
Defined.

(** X4. In both header modes there is one row per data line, and every row
    is an object with distinct keys, all of them headers, all of its values
    strings; every header other than [__proto__] is a key, so a repeated
    header gives one key and the row never has more keys than headers. *)
Theorem parseCsvData_row_shape (csv : string) (headers : option (list string)) :
  exists rows,
    parseCsvData (VStr csv) headers = Returns rows
    /\ List.length rows = List.length (dataLines csv headers)
    /\ forall row,
         In row rows ->
         exists fs,
           row = VObj fs
           /\ NoDup (map fst fs)
           /\ List.length fs <= List.length (headersIn csv headers)
           /\ (forall k v, In (k, v) fs ->
                 In k (headersIn csv headers) /\ exists s, v = VStr s)
           /\ (forall h, In h (headersIn csv headers) -> h <> "__proto__" ->
                 hasOwn h fs = true).
Proof.
  eexists. split; [apply parseCsvData_rows|]. split; [apply length_map|].
  intros row Hin. apply in_map_iff in Hin. destruct Hin as (line & <- & _).
  unfold rowObject. eexists. split; [reflexivity|].
  destruct (rowObjectFrom_shape (headersIn csv headers) (parseCsvLine line)
              (headersIn csv headers) (incl_refl _) 0 [])
    as (N1 & N2 & N3 & N4).
  - constructor.
  - intros k v [].
  - split; [exact N1|]. split; [exact N2|]. split.
    + intros k v Hkv. destruct (N3 k v Hkv) as (A & _ & C). now split.
    + intros h Hh Hp. apply hasOwn_keys. apply N4; [now left | exact Hp].
Qed.

Lemma parseCsvData_row_shape_witness :
  exists fs, VObj [("a", VStr "2")] = VObj fs /\ NoDup (map fst fs) /\ List.length fs <= 2.
Proof.
  destruct (parseCsvData_row_shape ("a,a" ++ NL ++ "1,2") None) as (rows & E & _ & H).
  vm_compute in E. injection E as <-.
  destruct (H _ (or_introl eq_refl)) as (fs & F & N & L & _).
  exists fs. split; [exact F|]. split; [exact N | exact L].
Defined.


(** ** Writing a table and reading it again *)

Lemma lastChar_app_r (a b : string) (d : ascii) :
  lastChar b = Some d -> lastChar (a ++ b) = Some d.
Proof.
  intro H. induction a as [|c r IH]; [exact H|].
  cbn [append lastChar]. destruct (r ++ b) eqn:E; [|exact IH].
  destruct r; [|discriminate]. simpl in E. subst b. discriminate.
Qed.

Lemma lastChar_join (sep : string) (d : ascii) (lines : list string) :
  forall x, lastChar (last (x :: lines) "") = Some d ->
            lastChar (join sep (x :: lines)) = Some d.
Proof.
  induction lines as [|y l IH]; intros x H; [exact H|].
  rewrite join_cons. apply lastChar_app_r, lastChar_app_r. apply IH. exact H.
Qed.

Lemma join_head (sep : string) (c : ascii) (r : string) (l : list string) :
  exists rest, join sep (String c r :: l) = String c rest.
Proof. destruct l; [now exists r | rewrite join_cons; simpl; eauto]. Qed.

Lemma last_map_rows {A B : Type} (f : A -> B) (x : B) (d : B) (d' : A) (l : list A) :
  l <> [] -> last (x :: map f l) d = f (last l d').
Proof.
  intro H. revert x. induction l as [|y tl IH]; intro x; [congruence|].
  destruct tl as [|z tl']; [reflexivity|].
  change (last (x :: map f (y :: z :: tl')) d) with (last (f y :: map f (z :: tl')) d).
  rewrite IH by discriminate. reflexivity.
Qed.

(** When the first header starts, and the last line ends, with something
    other than white space, trimming removes the final newline only. *)
Lemma trim_tableText (hs : list string) (rows : list (list string)) :
  startsClean (hd "" hs) = true -> rows <> [] ->
  endsClean (rowLine (last rows [])) = true ->
  trim (tableText hs rows) = tableBody hs rows.
Proof.
  intros Hs Hr He. destruct hs as [|h hs']; [discriminate|]. cbn [hd] in Hs.
  destruct h as [|c r]; [discriminate|]. cbn [startsClean] in Hs.
  apply negb_true_iff in Hs.
  unfold endsClean in He. destruct (lastChar (rowLine (last rows []))) as [d|] eqn:L;
    [|discriminate]. apply negb_true_iff in He.
  unfold tableText, tableBody.
  destruct (join_head "," c r hs') as (r0 & E0). rewrite E0.
  destruct (join_head NL c r0 (map rowLine rows)) as (body & E1).
  assert (Hl : lastChar (join NL (String c r0 :: map rowLine rows)) = Some d).
  { apply lastChar_join. rewrite (last_map_rows rowLine _ "" [] rows Hr). exact L. }
  rewrite E1 in *. now apply (trim_line_end c d).
Qed.

(** X5. A table of string fields without newlines, under distinct headers
    that need no quoting, hold no dot and are not [__proto__], written by
    [createCsvFile] with those headers and read by [parseCsvData] with
    auto-detected headers comes back unchanged, fields with commas and quotes
    included; the text must not start or end with white space. *)
Theorem table_write_then_parse (hs : list string) (rows : list (list string)) :
  forallb columnName hs = true -> distinct hs = true -> startsClean (hd "" hs) = true ->
  rows <> [] -> forallb (tableRow (List.length hs)) rows = true ->
  endsClean (rowLine (last rows [])) = true ->
  exists text,
    createCsvFile (VArr (tableRows hs rows)) (Some hs) = Returns text
    /\ parseCsvData (VStr text) None = Returns (tableRows hs rows).
Proof.
  intros Hcols Hdist Hstart Hrows Hreg Hend.
  assert (Hhs : hs <> []) by (destruct hs; [discriminate | discriminate]).
  assert (Hfacts : forall h, In h hs ->
            plainField h = true /\ includes dot h = false /\ h <> "__proto__").
  { intros h Hin. apply columnName_facts. exact (proj1 (forallb_forall _ hs) Hcols h Hin). }
  assert (Hrow : forall r, In r rows ->
            List.length r = List.length hs /\ Forall (fun c => includes lf c = false) r).
  { intros r Hin. pose proof (proj1 (forallb_forall _ rows) Hreg r Hin) as H.
    unfold tableRow in H. apply andb_true_iff in H. destruct H as [H1 H2].
    split; [now apply Nat.eqb_eq|]. apply Forall_forall. intros c Hc.
    apply negb_true_iff. exact (proj1 (forallb_forall _ r) H2 c Hc). }
  exists (tableText hs rows). split.
  - apply createCsvFile_tableRows.
    + now apply distinct_NoDup.
    + intro Hin. exact (proj2 (proj2 (Hfacts _ Hin)) eq_refl).
    + apply Forall_forall. intros h Hin. exact (proj1 (proj2 (Hfacts h Hin))).
    + exact Hrows.
    + apply Forall_forall. intros r Hin. exact (proj1 (Hrow r Hin)).
  - apply parseCsvData_tableText.
    + exact Hhs.
    + apply Forall_forall. intros h Hin. exact (proj1 (Hfacts h Hin)).
    + apply Forall_forall. intros r Hin. destruct (Hrow r Hin) as [Hlen Hlf]. split.
      * intro E. subst r. destruct hs; [congruence | discriminate].
      * exact Hlf.
    + now apply trim_tableText.
Qed.

Lemma table_write_then_parse_witness :
  let hs := ["id"; "note"] in
  let rows := [["1"; "a, b"]; ["2"; "say " ++ DQ ++ "hi" ++ DQ]] in
  exists text,
    createCsvFile (VArr (tableRows hs rows)) (Some hs) = Returns text
    /\ parseCsvData (VStr text) None = Returns (tableRows hs rows).
Proof.
  apply (table_write_then_parse ["id"; "note"]
           [["1"; "a, b"]; ["2"; "say " ++ DQ ++ "hi" ++ DQ]]);
    try reflexivity; discriminate.
Defined.

(** ** Flattened keys and the dot-path lookup *)

Lemma value_nested_ind (P : value -> Prop) :
  P VUndefined -> P VNull -> (forall b, P (VBool b)) -> (forall n, P (VNum n)) ->
  (forall s, P (VStr s)) ->
  (forall items, Forall P items -> P (VArr items)) ->
  (forall fs, Forall (fun kv => P (snd kv)) fs -> P (VObj fs)) ->
  (forall m st, P (VError m st)) ->
  forall v, P v.
Proof.
  intros HU HN HB HZ HS HA HO HE.
  fix IH 1. intros [| |b|n|s|items|fs|m st].
  - exact HU.
  - exact HN.
  - apply HB.
  - apply HZ.
  - apply HS.
  - apply HA. induction items as [|x tl IHl]; constructor; [apply IH | exact IHl].
  - apply HO. induction fs as [|[k x] tl IHl]; constructor; [apply IH | exact IHl].
  - apply HE.
Qed.

Lemma flattenObject_fields (fs : list (string * value)) (prefix : string) :
  flattenObject (VObj fs) prefix = flat_map (flattenField prefix) fs.
Proof.
  induction fs as [|[k v] tl IH]; [reflexivity|].
  cbn [flat_map]. rewrite <- IH. destruct v; reflexivity.
Qed.

Lemma wellKeyed_fields (fs : list (string * value)) :
  wellKeyed (VObj fs) = true ->
  distinct (map fst fs) = true
  /\ forall k x, In (k, x) fs -> keyOk k /\ wellKeyed x = true.
Proof.
  cbn [wellKeyed]. intro H. apply andb_true_iff in H. destruct H as [Hd He].
  split; [exact Hd|]. clear Hd.
  induction fs as [|[k1 x1] tl IH]; intros k x Hin; [destruct Hin|].
  apply andb_true_iff in He. destruct He as [He Htl].
  apply andb_true_iff in He. destruct He as [He Hw].
  apply andb_true_iff in He. destruct He as [Hne Hdot].
  destruct Hin as [Hin|Hin].
  - injection Hin as <- <-. split; [|exact Hw]. split.
    + apply negb_true_iff in Hne. now apply String.eqb_neq.
    + now apply negb_true_iff.
  - exact (IH Htl k x Hin).
Qed.

Lemma getOwn_distinct (fs : list (string * value)) (k : string) (x : value) :
  NoDup (map fst fs) -> In (k, x) fs -> getOwn k fs = x /\ hasOwn k fs = true.
Proof.
  induction fs as [|[k1 x1] tl IH]; intros Hd Hin; [destruct Hin|].
  simpl in Hd. inversion Hd as [|? ? H1 H2]; subst. cbn [getOwn hasOwn].
  destruct Hin as [Hin|Hin].
  - injection Hin as -> ->. now rewrite String.eqb_refl.
  - destruct (String.eqb k1 k) eqn:E; [|now apply IH].
    apply String.eqb_eq in E. subst k1. exfalso. apply H1.
    apply in_map_iff. now exists (k, x).
Qed.

Lemma join_snoc (sep k : string) (l : list string) :
  l <> [] -> join sep (l ++ [k]) = join sep l ++ sep ++ k.
Proof.
  induction l as [|x tl IH]; intro H; [congruence|].
  destruct tl as [|y tl'].
  - reflexivity.
  - change ((x :: y :: tl') ++ [k])%list with (x :: ((y :: tl') ++ [k]))%list.
    change ((y :: tl') ++ [k])%list with (y :: (tl' ++ [k]))%list.
    rewrite join_cons.
    change (y :: (tl' ++ [k]))%list with ((y :: tl') ++ [k])%list.
    rewrite IH by discriminate. rewrite join_cons. now rewrite !append_assoc.
Qed.

Lemma fullKeyOf_join (pre : list string) (k : string) :
  Forall keyOk pre -> fullKeyOf (join "." pre) k = join "." (pre ++ [k]).
Proof.
  intro H. destruct pre as [|p ps]; [reflexivity|].
  rewrite join_snoc by discriminate. unfold fullKeyOf.
  inversion H as [|? ? [Hp _] _]; subst.
  destruct p as [|c r]; [congruence|].
  destruct (join_head "." c r ps) as (rest & ->). reflexivity.
Qed.

Lemma flattened_from (v : value) :
  forall fs pre path,
    v = VObj fs ->
    wellKeyed v = true -> Forall keyOk pre ->
    In path (flattenObject v (join "." pre)) ->
    exists ks,
      ks <> [] /\ Forall keyOk ks /\ path = join "." (pre ++ ks)
      /\ hasPath v ks = true /\ isPlainObject (descend ks v) = false.
Proof.
  induction v as [| | | | | |fs0 IHfs|] using value_nested_ind;
    intros fs pre path Ev Hw Hpre Hin; try discriminate Ev.
  injection Ev as ->.
  rewrite flattenObject_fields in Hin. apply in_flat_map in Hin.
  destruct Hin as ([k x] & Hkx & Hin).
  destruct (wellKeyed_fields fs Hw) as [Hd Hkeys].
  destruct (Hkeys k x Hkx) as [Hk Hwx].
  destruct (getOwn_distinct fs k x (distinct_NoDup _ Hd) Hkx) as [Hget Hhas].
  pose proof (proj1 (Forall_forall _ fs) IHfs (k, x) Hkx) as IHx. cbn [snd] in IHx.
  assert (Hpre' : Forall keyOk (pre ++ [k])).
  { apply Forall_app. split; [exact Hpre | constructor; [exact Hk | constructor]]. }
  assert (Hleaf : isPlainObject x = false ->
            path = fullKeyOf (join "." pre) k ->
            exists ks, ks <> [] /\ Forall keyOk ks /\ path = join "." (pre ++ ks)
                       /\ hasPath (VObj fs) ks = true
                       /\ isPlainObject (descend ks (VObj fs)) = false).
  { intros Hx ->. exists [k]. split; [discriminate|]. split; [now constructor|].
    split; [now apply fullKeyOf_join|]. cbn [hasPath descend getProp].
    rewrite Hhas, Hget. split; [reflexivity | exact Hx]. }
  unfold flattenField in Hin. cbn [fst snd] in Hin.
  destruct x as [| |b|n|s|items|fs'|m st];
    try (destruct Hin as [Hin|[]]; apply Hleaf; [reflexivity | now symmetry]).
  - rewrite (fullKeyOf_join pre k Hpre) in Hin.
    destruct (IHx fs' (pre ++ [k])%list path eq_refl Hwx Hpre' Hin)
      as (ks & N1 & N2 & N3 & N4 & N5).
    exists (k :: ks). split; [discriminate|]. split; [now constructor|].
    split; [now rewrite N3, <- app_assoc|].
    cbn [hasPath descend getProp]. rewrite Hhas, Hget. now split.
  - destruct Hin.
Qed.

(** X6. In an object whose keys are distinct, non-empty and free of dots at
    every level, each key that [flattenObject] returns is a chain of own
    properties joined by dots, [getNestedValue] follows exactly that chain,
    and what it finds is never a plain object: the walk stopped at a leaf. *)
Theorem flattened_keys_resolve (fs : list (string * value)) (path : string) :
  wellKeyed (VObj fs) = true ->
  In path (flattenObject (VObj fs) "") ->
  exists ks,
    ks <> [] /\ path = join "." ks
    /\ hasPath (VObj fs) ks = true
    /\ getNestedValue (VObj fs) path = descend ks (VObj fs)
    /\ isPlainObject (getNestedValue (VObj fs) path) = false.
Proof.
  intros Hw Hin.
  destruct (flattened_from (VObj fs) fs [] path eq_refl Hw (Forall_nil _) Hin)
    as (ks & N1 & N2 & N3 & N4 & N5).
  cbn [app] in N3. exists ks. split; [exact N1|]. split; [exact N3|].
  split; [exact N4|].
  assert (E : getNestedValue (VObj fs) path = descend ks (VObj fs)).
  { unfold getNestedValue. rewrite N3.
    change "."%string with (String dot ""). rewrite split_join; [reflexivity | exact N1|].
    eapply Forall_impl; [|exact N2]. intros k [_ Hk]. exact Hk. }
  split; [exact E | now rewrite E].
Qed.

Lemma flattened_keys_resolve_witness :
  exists ks,
    ks <> [] /\ "b.d" = join "." ks
    /\ hasPath nestedSample ks = true
    /\ getNestedValue nestedSample "b.d" = descend ks nestedSample
    /\ isPlainObject (getNestedValue nestedSample "b.d") = false.
Proof.
  apply (flattened_keys_resolve
           [("a", VNum 1); ("b", VObj [("c", VNum 2); ("d", VNum 3)])] "b.d").
  - reflexivity.
  - simpl. tauto.
Defined.


(** ** The header set *)

Lemma setAdd_spec (k : string) (l : list string) :
  (forall x, In x (setAdd k l) <-> x = k \/ In x l)
  /\ (NoDup l -> NoDup (setAdd k l))
  /\ exists added, setAdd k l = (l ++ added)%list.
Proof.
  induction l as [|y tl (I1 & I2 & (added & I3))]; cbn [setAdd].
  - split; [intro x; simpl; intuition congruence|].
    split; [intros _; constructor; [intros [] | constructor] | now exists [k]].
  - destruct (String.eqb y k) eqn:E.
    + apply String.eqb_eq in E. subst y.
      split; [intro x; simpl; intuition congruence|].
      split; [tauto | exists []; now rewrite app_nil_r].
    + apply String.eqb_neq in E. split; [|split].
      * intro x. simpl. rewrite I1. intuition congruence.
      * intro Hd. inversion Hd as [|? ? H1 H2]; subst. constructor; [|now apply I2].
        rewrite I1. intros [H|H]; [congruence | contradiction].
      * exists added. simpl. now rewrite I3.
Qed.

Lemma addKeys_spec (keys : list string) :
  forall seen,
    let result := fold_left (fun h key => setAdd key h) keys seen in
    (forall x, In x result <-> In x keys \/ In x seen)
    /\ (NoDup seen -> NoDup result)
    /\ exists added, result = (seen ++ added)%list.
Proof.
  induction keys as [|k tl IH]; intro seen; cbn [fold_left].
  - split; [intro x; simpl; tauto|]. split; [tauto | exists []; now rewrite app_nil_r].
  - destruct (IH (setAdd k seen)) as (I1 & I2 & (added & I3)).
    destruct (setAdd_spec k seen) as (S1 & S2 & (added0 & S3)).
    split; [|split].
    + intro x. rewrite I1, S1. simpl. intuition congruence.
    + intro Hd. apply I2, S2, Hd.
    + exists (added0 ++ added)%list. rewrite I3, S3. now rewrite app_assoc.
Qed.

Lemma addObjects_spec (objects : list value) :
  forall seen,
    let result :=
      fold_left (fun headers obj =>
                   fold_left (fun h key => setAdd key h) (flattenObject obj "") headers)
                objects seen in
    (forall x, In x result <->
               (exists obj, In obj objects /\ In x (flattenObject obj "")) \/ In x seen)
    /\ (NoDup seen -> NoDup result)
    /\ exists added, result = (seen ++ added)%list.
Proof.
  induction objects as [|o tl IH]; intro seen; cbn [fold_left].
  - split; [|split; [tauto | exists []; now rewrite app_nil_r]].
    intro x. split; [now right | intros [(obj & [] & _)|H]; exact H].
  - destruct (IH (fold_left (fun h key => setAdd key h) (flattenObject o "") seen))
      as (I1 & I2 & (added & I3)).
    destruct (addKeys_spec (flattenObject o "") seen) as (S1 & S2 & (added0 & S3)).
    split; [|split].
    + intro x. rewrite I1, S1. split.
      * intros [(obj & Ho & Hx)|[H|H]].
        -- left. exists obj. split; [now right | exact Hx].
        -- left. exists o. split; [now left | exact H].
        -- now right.
      * intros [(obj & [Ho|Ho] & Hx)|H].
        -- subst obj. right. now left.
        -- left. now exists obj.
        -- right. now right.
    + intro Hd. apply I2, S2, Hd.
    + exists (added0 ++ added)%list. rewrite I3, S3. now rewrite app_assoc.
Qed.

(** X7. The headers extracted from an array of objects have no duplicates
    and are exactly the flattened keys of its items; items that come later
    only append headers, so the columns of the earlier items keep their
    places. *)
Theorem extractHeaders_union (objects : list value) :
  NoDup (extractHeadersFromObjects objects)
  /\ (forall k, In k (extractHeadersFromObjects objects) <->
                exists obj, In obj objects /\ In k (flattenObject obj ""))
  /\ (forall later, exists added,
        extractHeadersFromObjects (objects ++ later)
        = (extractHeadersFromObjects objects ++ added)%list).
Proof.
  unfold extractHeadersFromObjects.
  destruct (addObjects_spec objects []) as (I1 & I2 & _).
  split; [apply I2; constructor|]. split.
  - intro k. rewrite I1. split; [intros [H|[]]; exact H | now left].
  - intro later. rewrite fold_left_app.
    destruct (addObjects_spec later
                (fold_left (fun headers obj =>
                   fold_left (fun h key => setAdd key h) (flattenObject obj "") headers)
                   objects [])) as (_ & _ & H).
    exact H.
Qed.

Lemma extractHeaders_union_witness :
  In "b.c" (extractHeadersFromObjects [VObj [("a", VNum 1)]; nestedSample]).
Proof.
  apply (proj1 (proj2 (extractHeaders_union [VObj [("a", VNum 1)]; nestedSample]))).
  exists nestedSample. split; [right; now left | right; now left].
Defined.


(** ** What the CSV serializer writes *)

Lemma csvCell_cellText (v : value) : csvCell v = csvEscape (cellText v).
Proof. destruct v; reflexivity. Qed.

(** X9. A row of cells written by the CSV serializer, read by the line
    parser, gives back the text of each value before quoting (empty for
    [null] and [undefined], the JSON text for objects and arrays, the string
    coercion otherwise), whatever commas, quotes or newlines it holds; so a
    row written for an object under headers that are all chains of own
    properties of nested plain objects reads back as one field per header. *)
Theorem written_row_reads_back :
  (forall values,
      values <> [] -> parseCsvLine (join "," (map csvCell values)) = map cellText values)
  /\ (forall hs item,
        hs <> [] -> forallb (fun h => hasPath item (split dot h)) hs = true ->
        exists line,
          csvRow hs item = line ++ NL
          /\ parseCsvLine line = map (fun h => cellText (getNestedValue item h)) hs
          /\ List.length (parseCsvLine line) = List.length hs).
Proof.
  assert (cells : forall values,
            values <> [] ->
            parseCsvLine (join "," (map csvCell values)) = map cellText values).
  { intros values H.
    assert (E : map csvCell values = map csvEscape (map cellText values)).
    { rewrite map_map. apply map_ext. intro v. apply csvCell_cellText. }
    rewrite E. apply parseCsvLine_row. destruct values; [congruence | discriminate]. }
  split; [exact cells|].
  intros hs item H _. exists (join "," (map (fun h => csvCell (getNestedValue item h)) hs)).
  split; [reflexivity|].
  rewrite <- (map_map (getNestedValue item) csvCell).
  rewrite cells by (destruct hs; [congruence | discriminate]).
  rewrite map_map. split; [reflexivity | apply length_map].
Qed.

Lemma written_row_reads_back_witness :
  exists line,
    csvRow ["a"; "b"] nestedSample = line ++ NL
    /\ parseCsvLine line = map (fun h => cellText (getNestedValue nestedSample h)) ["a"; "b"]
    /\ List.length (parseCsvLine line) = 2.
Proof.
  apply (proj2 written_row_reads_back ["a"; "b"] nestedSample);
    [discriminate | reflexivity].
Defined.

Lemma lastChar_newline (x : string) : lastChar (x ++ NL) = Some lf.
Proof. apply lastChar_append. Qed.

Lemma lastChar_concat (f : value -> string) (items : list value) :
  (forall v, exists x, f v = x ++ NL) -> items <> [] ->
  lastChar (concatStrings (map f items)) = Some lf.
Proof.
  intros Hf Hne. induction items as [|v tl IH]; [congruence|].
  cbn [map]. rewrite concatStrings_cons. destruct tl as [|w tl'].
  - cbn [map]. unfold concatStrings at 1. cbn [String.concat].
    rewrite append_empty_r. destruct (Hf v) as (x & ->). apply lastChar_newline.
  - apply lastChar_app_r. apply IH. discriminate.
Qed.

(** X8. Whenever [createCsvFile] returns, the text is the placeholder
    exactly when the data is the empty array, and otherwise it ends with a
    newline and, under a header list, starts with the header line. *)
Theorem createCsvFile_content_shape (data : value) (headers : option (list string))
  (content : string) :
  createCsvFile data headers = Returns content ->
  (data = VArr [] /\ content = "No data")
  \/ (data <> VArr [] /\ lastChar content = Some lf
      /\ forall hs, headers = Some hs -> exists rest, content = join "," hs ++ NL ++ rest).
Proof.
  assert (Hrow : forall hs v, exists x, csvRow hs v = x ++ NL) by (intros; eexists; reflexivity).
  assert (Hplain : forall v, exists x, plainRow v = x ++ NL).
  { intros [| | | | |cells| |]; eexists; reflexivity. }
  assert (Hend : forall a b, lastChar (a ++ NL ++ b ++ NL) = Some lf).
  { intros a b. rewrite <- !append_assoc. apply lastChar_newline. }
  assert (Hscalar : forall v,
            (match headers with
             | Some hs => Returns (join "," hs ++ NL ++ toStr v ++ NL)
             | None => Returns ("Value" ++ NL ++ toStr v ++ NL)
             end = Returns content) ->
            lastChar content = Some lf
            /\ forall hs, headers = Some hs -> exists rest, content = join "," hs ++ NL ++ rest).
  { intros v H. destruct headers as [hs|]; injection H as <-.
    - split; [exact (Hend (join "," hs) (toStr v))|].
      intros hs' E. injection E as <-. eexists; reflexivity.
    - split; [exact (Hend "Value" (toStr v)) | discriminate]. }
  assert (Hinj : forall a b : string, Returns a = Returns b :> result string -> a = b)
    by (intros a b E; now injection E).
  destruct data as [| |b|n|s|items|fs|m st]; cbn [createCsvFile]; intro H;
    try (right; split; [discriminate | now apply (Hscalar _ H)]); clear Hscalar.
  - destruct headers as [hs|]; [|discriminate]. apply Hinj in H. subst content.
    right. split; [discriminate|]. split.
    + destruct (Hrow hs VNull) as (x & ->). apply Hend.
    + intros hs' E. injection E as <-. eexists; reflexivity.
  - destruct items as [|first rest]; [apply Hinj in H; subst content; now left|].
    right. split; [discriminate|].
    destruct (typeofObject first && negb (isArray first)); apply Hinj in H; subst content.
    + split.
      * apply lastChar_app_r, lastChar_app_r.
        apply lastChar_concat; [apply Hrow | discriminate].
      * intros hs E. subst headers. eexists; reflexivity.
    + split.
      * apply lastChar_app_r. apply lastChar_concat; [exact Hplain | discriminate].
      * intros hs E. subst headers. rewrite append_assoc. eexists; reflexivity.
  - apply Hinj in H. subst content. right. split; [discriminate|]. split.
    + match goal with |- context [csvRow ?h ?v] => destruct (Hrow h v) as (x & ->) end.
      apply Hend.
    + intros hs E. subst headers. eexists; reflexivity.
  - apply Hinj in H. subst content. right. split; [discriminate|]. split.
    + match goal with |- context [csvRow ?h ?v] => destruct (Hrow h v) as (x & ->) end.
      apply Hend.
    + intros hs E. subst headers. eexists; reflexivity.
Qed.

Lemma createCsvFile_content_shape_witness :
  createCsvFile (VArr [VArr [VNum 1; VNum 2]]) (Some ["n"; "m"])
  = Returns ("n,m" ++ NL ++ "1,2" ++ NL)
  /\ lastChar ("n,m" ++ NL ++ "1,2" ++ NL) = Some lf.
Proof.
  split; [reflexivity|].
  destruct (createCsvFile_content_shape (VArr [VArr [VNum 1; VNum 2]]) (Some ["n"; "m"])
              ("n,m" ++ NL ++ "1,2" ++ NL) eq_refl) as [(E & _)|(_ & L & _)];
    [discriminate E | exact L].
Defined.

(** ** File creation after validation *)

Lemma isValidFormat_cases (x : option string) :
  isValidFormat x = true -> x = Some "txt" \/ x = Some "json" \/ x = Some "csv".
Proof.
  destruct x as [s|]; [|discriminate]. unfold isValidFormat, validFormats. cbn [existsb].
  intro H. apply orb_true_iff in H. destruct H as [H|H].
  - apply String.eqb_eq in H. subst s. now left.
  - apply orb_true_iff in H. destruct H as [H|H].
    + apply String.eqb_eq in H. subst s. right. now left.
    + apply orb_true_iff in H. destruct H as [H|H]; [|discriminate].
      apply String.eqb_eq in H. subst s. right. now right.
Qed.

(** The three shapes of accepted options. *)
Lemma validated_shapes (o : options) :
  validateOptions o = Returns tt ->
  (truthy (fileType o) = false /\ truthy (from o) = false /\ truthy (to o) = false)
  \/ (isValidFormat (fileType o) = true /\ truthy (from o) = false /\ truthy (to o) = false)
  \/ (truthy (fileType o) = false /\ isValidFormat (from o) = true
      /\ isValidFormat (to o) = true /\ sameText (from o) (to o) = false).
Proof.
  destruct o as [name ft fr t hs]. unfold validateOptions. cbn [fileType from to].
  destruct (truthy ft) eqn:Eft, (truthy fr) eqn:Efr, (truthy t) eqn:Et;
    cbn [andb orb negb]; try discriminate.
  - destruct (isValidFormat ft) eqn:V; cbn [negb]; [|discriminate]. intros _. right. now left.
  - destruct (isValidFormat fr) eqn:V1; cbn [negb]; [|discriminate].
    destruct (isValidFormat t) eqn:V2; cbn [negb]; [|discriminate].
    destruct (sameText fr t) eqn:S; [discriminate|]. intros _. right. right. tauto.
  - intros _. now left.
Qed.

Lemma createCsvFile_throws (data : value) (headers : option (list string)) (e : exn) :
  createCsvFile data headers = Throws e ->
  data = VNull /\ headers = None /\ e = TypeError "Cannot convert undefined or null to object".
Proof.
  destruct data as [| |b|n|s|items|fs|m st]; cbn [createCsvFile];
    try (destruct headers; discriminate); try discriminate.
  - destruct headers; [discriminate|]. intro H. injection H as <-. now repeat split.
  - destruct items as [|first rest]; [discriminate|].
    destruct (typeofObject first && negb (isArray first)); discriminate.
Qed.

Lemma parseJsonData_throws (parse : string -> option value) (data : value) (e : exn) :
  parseJsonData parse data = Throws e ->
  e = Error "Invalid JSON string provided for conversion"
  /\ exists s, data = VStr s /\ parse s = None.
Proof.
  destruct data; cbn [parseJsonData]; try discriminate.
  destruct (parse s) eqn:P; [discriminate|]. intro H. injection H as <-. eauto.
Qed.

Lemma parseJsonData_null (parse : string -> option value) (data : value) :
  parseJsonData parse data = Returns VNull ->
  data = VNull \/ exists s, data = VStr s /\ parse s = Some VNull.
Proof.
  destruct data; cbn [parseJsonData]; try discriminate; [now left|].
  destruct (parse s) eqn:P; [|discriminate]. intro H. injection H as ->. right. eauto.
Qed.

Lemma parseCsvData_throws (data : value) (headers : option (list string)) (e : exn) :
  parseCsvData data headers = Throws e ->
  e = Error "CSV data must be a string for conversion" /\ forall s, data <> VStr s.
Proof.
  destruct data; cbn [parseCsvData]; try (intro H; injection H as <-; split;
                                          [reflexivity | discriminate]).
  destruct (Nat.eqb (List.length (split lf (trim s))) 0); [discriminate|].
  destruct headers; discriminate.
Qed.

Lemma parseTextData_not_null (now : string) (data : value) : parseTextData now data <> VNull.
Proof.
  destruct data; cbn [parseTextData]; try discriminate.
  destruct (Nat.ltb 1 (List.length (split lf (trim s)))); discriminate.
Qed.

(** What [createFileFromData] computes once the options are accepted. *)
Lemma createFileFromData_accepted (now : string) (parse : string -> option value) (time : Z)
  (rnd : ascii * ascii * ascii * ascii) (data : value) (o : options) :
  validateOptions o = Returns tt ->
  createFileFromData now parse time rnd data o
  = bind (if truthy (from o) && truthy (to o)
          then convertAndCreateFile now parse data (interp (from o)) (interp (to o))
                 (csvHeaders o)
          else createFileDirectly now parse data (resolveOutputFormat o) (csvHeaders o))
         (fun content =>
            Returns (resolveFileName time rnd (fileName o) (resolveOutputFormat o), content)).
Proof. intro H. unfold createFileFromData. now rewrite H. Qed.

(** The written content, case by case. *)
Lemma direct_content (now : string) (parse : string -> option value) (data : value)
  (type : string) (hs : option (list string)) :
  In type validFormats ->
  createFileDirectly now parse data type hs
  = if String.eqb type "csv"
    then bind (createCsvFile data hs) (fun c => Returns (Some c))
    else Returns (Some (if String.eqb type "txt" then createTextFile data
                        else createJsonFile now parse data)).
Proof. intros [<-|[<-|[<-|[]]]]; reflexivity. Qed.

Lemma bind_returns {A B : Type} (r : result A) (k : A -> result B) (b : B) :
  bind r k = Returns b -> exists a, r = Returns a /\ k a = Returns b.
Proof. destruct r; cbn [bind]; [eauto | discriminate]. Qed.

Lemma bind_throws {A B : Type} (r : result A) (k : A -> result B) (e : exn) :
  bind r k = Throws e -> r = Throws e \/ exists a, r = Returns a /\ k a = Throws e.
Proof. destruct r; cbn [bind]; [eauto | intro H; injection H as ->; now left]. Qed.

Lemma convert_outcome (now : string) (parse : string -> option value) (data : value)
  (src dst : string) (hs : option (list string)) :
  In src validFormats -> In dst validFormats -> src <> dst ->
  (forall content,
      convertAndCreateFile now parse data src dst hs = Returns content ->
      exists text, content = Some text)
  /\ (forall e,
        convertAndCreateFile now parse data src dst hs = Throws e ->
        (e = Error "Invalid JSON string provided for conversion" /\ src = "json"
         /\ exists s, data = VStr s /\ parse s = None)
        \/ (e = Error "CSV data must be a string for conversion" /\ src = "csv"
            /\ forall s, data <> VStr s)
        \/ (e = TypeError "Cannot convert undefined or null to object" /\ dst = "csv"
            /\ hs = None
            /\ (data = VNull \/ exists s, data = VStr s /\ parse s = Some VNull))).
Proof.
  intros [<-|[<-|[<-|[]]]] [<-|[<-|[<-|[]]]] Hne; try congruence;
    cbn [convertAndCreateFile String.eqb Ascii.eqb Bool.eqb]; split; intros x H.
  - (* txt to json *) injection H as <-. eauto.
  - discriminate.
  - (* txt to csv *)
    apply bind_returns in H. destruct H as (c & _ & H). injection H as <-. eauto.
  - apply bind_throws in H. destruct H as [H|(c & _ & H)]; [|discriminate].
    apply createCsvFile_throws in H. destruct H as (H & _).
    now apply parseTextData_not_null in H.
  - (* json to txt *)
    apply bind_returns in H. destruct H as (v & _ & H). injection H as <-. eauto.
  - apply bind_throws in H. destruct H as [H|(v & _ & H)]; [|discriminate].
    apply parseJsonData_throws in H. destruct H as (-> & Hs). left. now repeat split.
  - (* json to csv *)
    apply bind_returns in H. destruct H as (v & _ & H).
    apply bind_returns in H. destruct H as (c & _ & H). injection H as <-. eauto.
  - apply bind_throws in H. destruct H as [H|(v & Hv & H)].
    + apply parseJsonData_throws in H. destruct H as (-> & Hs). left. now repeat split.
    + apply bind_throws in H. destruct H as [H|(c & _ & H)]; [|discriminate].
      apply createCsvFile_throws in H. destruct H as (-> & -> & ->).
      right. right. repeat split. now apply parseJsonData_null.
  - (* csv to txt *)
    apply bind_returns in H. destruct H as (rows & _ & H). injection H as <-. eauto.
  - apply bind_throws in H. destruct H as [H|(rows & _ & H)]; [|discriminate].
    apply parseCsvData_throws in H. destruct H as (-> & Hs). right. left. now repeat split.
  - (* csv to json *)
    apply bind_returns in H. destruct H as (rows & _ & H). injection H as <-. eauto.
  - apply bind_throws in H. destruct H as [H|(rows & _ & H)]; [|discriminate].
    apply parseCsvData_throws in H. destruct H as (-> & Hs). right. left. now repeat split.
Qed.

Lemma accepted_format (o : options) :
  validateOptions o = Returns tt ->
  In (resolveOutputFormat o) validFormats
  /\ (truthy (from o) && truthy (to o) = true ->
      truthy (fileType o) = false /\ In (interp (from o)) validFormats
      /\ In (interp (to o)) validFormats /\ interp (from o) <> interp (to o)
      /\ resolveOutputFormat o = interp (to o)
      /\ (from o = Some (interp (from o))))
  /\ (truthy (from o) = true -> truthy (from o) && truthy (to o) = true).
Proof.
  intro H. pose proof (validated_shapes o H) as S.
  destruct o as [name ft fr t hs]. cbn [fileType from to] in S.
  unfold resolveOutputFormat. cbn [fileType from to].
  destruct S as [(A & B & C)|[(A & B & C)|(A & B & C & D)]].
  - rewrite A, B, C. cbn [andb]. split; [now left|]. split; discriminate.
  - rewrite B, C. cbn [andb].
    destruct (isValidFormat_cases ft A) as [ -> | [ -> | -> ] ];
      (split; [simpl; tauto|]); split; discriminate.
  - destruct (isValidFormat_cases fr B) as [ -> | [ -> | -> ] ];
      destruct (isValidFormat_cases t C) as [ -> | [ -> | -> ] ]; try discriminate D;
      (split; [simpl; tauto|]); (split; [|reflexivity]); intros _;
      (split; [exact A|]); simpl; repeat split; try tauto; discriminate.
Qed.

(** X10. For accepted options the output format is one of txt, json and
    csv; in conversion mode no file type is set and source and target are
    two different valid formats; and whenever [createFileFromData] returns, a
    file was written: the conversion switch never falls through and the
    unsupported-type branch is never reached. *)
Theorem accepted_options_write_a_file (o : options) :
  validateOptions o = Returns tt ->
  In (resolveOutputFormat o) validFormats
  /\ (truthy (from o) = true ->
      truthy (fileType o) = false /\ In (interp (from o)) validFormats
      /\ In (interp (to o)) validFormats /\ interp (from o) <> interp (to o))
  /\ (forall now parse time rnd data name content,
        createFileFromData now parse time rnd data o = Returns (name, content) ->
        exists text, content = Some text)
  /\ (forall now parse time rnd data type,
        createFileFromData now parse time rnd data o
        <> Throws (Error ("Unsupported file type: " ++ type))).
Proof.
  intro H. destruct (accepted_format o H) as (F1 & F2 & F3).
  split; [exact F1|]. split.
  - intro Hf. destruct (F2 (F3 Hf)) as (A & B & C & D & _). tauto.
  - split.
    + intros now parse time rnd data name content E.
      rewrite (createFileFromData_accepted now parse time rnd data o H) in E.
      apply bind_returns in E. destruct E as (c & Hc & E). injection E as _ <-.
      destruct (truthy (from o) && truthy (to o)) eqn:M.
      * destruct (F2 eq_refl) as (_ & B & C & D & _).
        exact (proj1 (convert_outcome now parse data _ _ _ B C D) c Hc).
      * rewrite (direct_content now parse data _ _ F1) in Hc.
        destruct (String.eqb (resolveOutputFormat o) "csv").
        -- apply bind_returns in Hc. destruct Hc as (x & _ & Hc). injection Hc as <-. eauto.
        -- injection Hc as <-. eauto.
    + intros now parse time rnd data type E.
      rewrite (createFileFromData_accepted now parse time rnd data o H) in E.
      apply bind_throws in E. destruct E as [E|(c & _ & E)]; [|discriminate].
      destruct (truthy (from o) && truthy (to o)) eqn:M.
      * destruct (F2 eq_refl) as (_ & B & C & D & _).
        destruct (proj2 (convert_outcome now parse data _ _ _ B C D) _ E)
          as [(X & _)|[(X & _)|(X & _)]]; discriminate X.
      * rewrite (direct_content now parse data _ _ F1) in E.
        destruct (String.eqb (resolveOutputFormat o) "csv"); [|discriminate].
        apply bind_throws in E. destruct E as [E|(x & _ & E)]; [|discriminate].
        apply createCsvFile_throws in E. destruct E as (_ & _ & X). discriminate X.
Qed.

Lemma accepted_options_write_a_file_witness :
  let o := {| fileName := None; fileType := None; from := Some "csv"; to := Some "json";
              csvHeaders := None |} in
  In (resolveOutputFormat o) validFormats
  /\ exists text,
       snd (match createFileFromData "T" (fun _ => None) 0
                    ("000", "000", "000", "000")%char (VStr "a") o with
            | Returns r => r
            | Throws _ => ("", None)
            end) = Some text.
Proof.
  intro o.
  destruct (accepted_options_write_a_file o eq_refl) as (F & _ & W & _).
  split; [exact F|].
  exact (W "T" (fun _ => None) 0%Z ("000", "000", "000", "000")%char (VStr "a") _ _ eq_refl).
Defined.

(** X11. With accepted options the failures of the parsers and of the
    null input come out of [createFileFromData] unchanged: a string that
    [JSON.parse] rejects given as json source, a value that is not a string
    given as csv source, and [null] (as data of a direct creation or of a
    json source, or as what a JSON string parses to) written to csv without a
    header list. *)
Theorem accepted_options_known_failures (o : options) (now : string)
  (parse : string -> option value) (time : Z) (rnd : ascii * ascii * ascii * ascii)
  (data : value) :
  validateOptions o = Returns tt ->
  (forall s,
      from o = Some "json" -> data = VStr s -> parse s = None ->
      createFileFromData now parse time rnd data o
      = Throws (Error "Invalid JSON string provided for conversion"))
  /\ (from o = Some "csv" -> (forall s, data <> VStr s) ->
      createFileFromData now parse time rnd data o
      = Throws (Error "CSV data must be a string for conversion"))
  /\ (resolveOutputFormat o = "csv" -> csvHeaders o = None ->
      (data = VNull /\ from o <> Some "txt")
      \/ (from o = Some "json" /\ exists s, data = VStr s /\ parse s = Some VNull) ->
      createFileFromData now parse time rnd data o
      = Throws (TypeError "Cannot convert undefined or null to object")).
Proof.
  intro H. destruct (accepted_format o H) as (F1 & F2 & F3).
  rewrite (createFileFromData_accepted now parse time rnd data o H).
  destruct o as [name ft fr t hs]. cbn [fileType from to csvHeaders fileName] in *.
  split; [|split].
  - intros s -> -> P. specialize (F2 (F3 eq_refl)).
    destruct F2 as (_ & _ & C & D & _ & _). rewrite (F3 eq_refl). cbn [interp] in *.
    destruct C as [C|[C|[C|[]]]]; try congruence; rewrite <- C;
      cbn [convertAndCreateFile String.eqb Ascii.eqb Bool.eqb parseJsonData];
      rewrite P; reflexivity.
  - intros -> S. specialize (F2 (F3 eq_refl)).
    destruct F2 as (_ & _ & C & D & _ & _). rewrite (F3 eq_refl). cbn [interp] in *.
    assert (P : forall h, parseCsvData data h
                          = Throws (Error "CSV data must be a string for conversion")).
    { intro h. destruct data; try reflexivity. now destruct (S s). }
    destruct C as [C|[C|[C|[]]]]; try congruence; rewrite <- C;
      cbn [convertAndCreateFile String.eqb Ascii.eqb Bool.eqb];
      rewrite P; reflexivity.
  - intros R -> [[-> N]|[-> (s & -> & P)]].
    + destruct (truthy fr && truthy t) eqn:M.
      * destruct (F2 eq_refl) as (_ & B & _ & D & T & Hfr).
        rewrite T in R. rewrite R in *. cbn [interp] in *.
        destruct B as [E|[E|[E|[]]]]; rewrite <- E in *; try congruence.
        reflexivity.
      * rewrite R. reflexivity.
    + rewrite (F3 eq_refl). destruct (F2 (F3 eq_refl)) as (_ & _ & _ & _ & T & _).
      rewrite T in R. rewrite R. cbn [interp].
      cbn [convertAndCreateFile String.eqb Ascii.eqb Bool.eqb parseJsonData].
      rewrite P. reflexivity.
Qed.

Lemma accepted_options_known_failures_witness :
  let o := {| fileName := None; fileType := None; from := Some "json"; to := Some "csv";
              csvHeaders := None |} in
  validateOptions o = Returns tt
  /\ createFileFromData "T" (fun _ => None) 0 ("000", "000", "000", "000")%char (VStr "{") o
     = Throws (Error "Invalid JSON string provided for conversion").
Proof.
  intro o. split; [reflexivity|].
  apply (proj1 (accepted_options_known_failures o "T" (fun _ => None) 0%Z
                  ("000", "000", "000", "000")%char (VStr "{") eq_refl) "{");
    reflexivity.
Defined.

(** X12. Whatever the name option and the format, the file name that
    [createFileFromData] settles on contains a dot; and unless the caller's
    name already had one, the name ends with a dot followed by the output
    format. *)
Theorem resolved_name_has_extension (time : Z) (rnd : ascii * ascii * ascii * ascii)
  (name : option string) (fmt : string) :
  includes dot (resolveFileName time rnd name fmt) = true
  /\ (includes dot (interp name) = false \/ truthy name = false ->
      exists stem, resolveFileName time rnd name fmt = stem ++ "." ++ fmt).
Proof.
  unfold resolveFileName. destruct (truthy name) eqn:T; cbn [negb].
  - destruct (includes dot (interp name)) eqn:D; cbn [negb].
    + split; [exact D|]. intros [H|H]; discriminate.
    + split; [|intros _; now exists (interp name)].
      rewrite !includes_append. cbn [includes]. change (Ascii.eqb "." dot) with true.
      now rewrite orb_true_r.
  - split.
    + rewrite !includes_append. cbn [includes]. change (Ascii.eqb "." dot) with true.
      now rewrite !orb_true_r.
    + intros _. exists ("alert-" ++ numberToString time ++ "-" ++ randomHex rnd).
      now rewrite !append_assoc.
Qed.

Lemma resolved_name_has_extension_witness :
  includes dot (interp (Some "summary")) = false
  /\ exists stem,
       resolveFileName 0 ("000", "000", "000", "000")%char (Some "summary") "json"
       = stem ++ "." ++ "json".
Proof.
  split; [reflexivity|].
  apply (proj2 (resolved_name_has_extension 0%Z ("000", "000", "000", "000")%char
                  (Some "summary") "json")).
  left. reflexivity.
Defined.

(** ** Text converted to CSV *)

Lemma digits_plain (d : Decimal.uint) : needsQuoting (NilEmpty.string_of_uint d) = false.
Proof.
  induction d; cbn [NilEmpty.string_of_uint]; try reflexivity;
    unfold needsQuoting in *; cbn [includes];
    match goal with
    | |- context [Ascii.eqb ?c comma] =>
        change (Ascii.eqb c comma) with false; change (Ascii.eqb c dq) with false;
        change (Ascii.eqb c lf) with false
    end; exact IHd.
Qed.

(** A number is written without quotes. *)
Lemma numberToString_plain (n : Z) : csvEscape (numberToString n) = numberToString n.
Proof.
  apply csvEscape_plain. unfold plainField. apply negb_true_iff.
  unfold numberToString. destruct (Z.to_int n) as [d|d]; cbn [NilZero.string_of_int].
  - destruct d; try reflexivity; apply (digits_plain _).
  - unfold needsQuoting. cbn [includes].
    change (Ascii.eqb "-" comma) with false. change (Ascii.eqb "-" dq) with false.
    change (Ascii.eqb "-" lf) with false. cbn [orb].
    fold (needsQuoting (NilZero.string_of_uint d)).
    destruct d; try reflexivity; apply (digits_plain _).
Qed.

Lemma lineRecords_headers (lines : list string) :
  forall j,
    fold_left (fun headers obj =>
                 fold_left (fun h key => setAdd key h) (flattenObject obj "") headers)
              (mapIndexed lineRecord j lines) lineKeys
    = lineKeys.
Proof.
  induction lines as [|l tl IH]; intro j; [reflexivity|].
  cbn [mapIndexed fold_left].
  change (flattenObject (lineRecord j l) "") with lineKeys.
  change (fold_left (fun h key => setAdd key h) lineKeys lineKeys) with lineKeys.
  apply IH.
Qed.

Lemma lineRecords_extract (lines : list string) (j : nat) :
  lines <> [] -> extractHeadersFromObjects (mapIndexed lineRecord j lines) = lineKeys.
Proof.
  destruct lines as [|l tl]; [congruence|]. intros _.
  unfold extractHeadersFromObjects. cbn [mapIndexed fold_left].
  change (flattenObject (lineRecord j l) "") with lineKeys.
  change (fold_left (fun h key => setAdd key h) lineKeys []) with lineKeys.
  apply lineRecords_headers.
Qed.

Lemma lineRecord_row (j : nat) (line : string) :
  csvRow lineKeys (lineRecord j line) = lineRow j line
  /\ csvRow ["lineNumber"; "content"] (lineRecord j line) = lineRowShort j line.
Proof.
  unfold csvRow, lineRow, lineRowShort, lineKeys. cbn [map].
  change (getNestedValue (lineRecord j line) "lineNumber") with (VNum (Z.of_nat j + 1)).
  change (getNestedValue (lineRecord j line) "content") with (VStr (trim line)).
  change (getNestedValue (lineRecord j line) "characterCount")
    with (VNum (Z.of_nat (String.length line))).
  change (csvCell (VNum (Z.of_nat j + 1))) with (csvEscape (numberToString (Z.of_nat j + 1))).
  change (csvCell (VNum (Z.of_nat (String.length line))))
    with (csvEscape (numberToString (Z.of_nat (String.length line)))).
  change (csvCell (VStr (trim line))) with (csvEscape (trim line)).
  rewrite !numberToString_plain. rewrite !join_cons.
  unfold join. cbn [String.concat]. now rewrite !append_assoc.
Qed.

Lemma lineRecords_rows (lines : list string) :
  forall j,
    map (csvRow lineKeys) (mapIndexed lineRecord j lines) = mapIndexed lineRow j lines
    /\ map (csvRow ["lineNumber"; "content"]) (mapIndexed lineRecord j lines)
       = mapIndexed lineRowShort j lines.
Proof.
  induction lines as [|l tl IH]; intro j; [now split|].
  cbn [mapIndexed map]. destruct (IH (S j)) as [-> ->].
  destruct (lineRecord_row j l) as [-> ->]. now split.
Qed.

(** X13. A text of several lines converted from txt to csv: without a
    header list the file starts with the line lineNumber,content,
    characterCount and has one row per line of the trimmed text, holding its
    number from 1, its trimmed content (quoted when it needs to be) and its
    length before trimming; with the headers lineNumber and content the rows
    hold the first two. *)
Theorem text_lines_to_csv (now : string) (t : string) :
  includes lf (trim t) = true ->
  createCsvFile (parseTextData now (VStr t)) None
  = Returns ("lineNumber,content,characterCount" ++ NL
               ++ concatStrings (mapIndexed lineRow 0 (split lf (trim t))))
  /\ createCsvFile (parseTextData now (VStr t)) (Some ["lineNumber"; "content"])
     = Returns ("lineNumber,content" ++ NL
                  ++ concatStrings (mapIndexed lineRowShort 0 (split lf (trim t)))).
Proof.
  intro H. pose proof (split_includes_length lf (trim t) H) as L.
  unfold parseTextData. apply Nat.ltb_lt in L. rewrite L.
  destruct (split lf (trim t)) as [|l tl] eqn:S; [discriminate|].
  assert (Hne : l :: tl <> []) by discriminate.
  pose proof (lineRecords_extract (l :: tl) 0 Hne) as Hx.
  destruct (lineRecords_rows (l :: tl) 0) as [R1 R2].
  cbn [mapIndexed] in *. cbn [createCsvFile].
  change (typeofObject (lineRecord 0 l) && negb (isArray (lineRecord 0 l))) with true.
  cbv iota. rewrite Hx, R1, R2. split; reflexivity.
Qed.

Lemma text_lines_to_csv_witness :
  createCsvFile (parseTextData "T" (VStr ("up, again" ++ NL ++ " down"))) None
  = Returns ("lineNumber,content,characterCount" ++ NL
               ++ concatStrings (mapIndexed lineRow 0 ["up, again"; " down"])).
Proof.
  apply (proj1 (text_lines_to_csv "T" ("up, again" ++ NL ++ " down") eq_refl)).
Defined.

(** * Properties of the configuration store *)

Lemma prefix_nonempty (token : string) : String.prefix "xoxb-" token = true -> token <> "".
Proof. destruct token; [discriminate | discriminate]. Qed.

Lemma init_returns (tempUploads : string) (c c' : ConfigStore) (token name id : string)
  (ad : option bool) :
  init tempUploads c token name id ad = Returns c' ->
  isInitialized c = false /\ String.prefix "xoxb-" token = true /\ name <> "" /\ id <> ""
  /\ c' = {| isInitialized := true; slackToken := token; defaultChannelName := name;
             defaultChannelId := id; slackClient := Some token;
             autoDeleteFiles := match ad with Some b => b | None => autoDeleteFiles c end;
             tempDir := tempUploads |}.
Proof.
  unfold init, initialize. destruct (isInitialized c) eqn:I; [discriminate|].
  destruct (String.eqb token ""); cbn [orb]; [discriminate|].
  destruct (String.prefix "xoxb-" token); cbn [negb]; [|discriminate].
  destruct (String.eqb name "") eqn:N; [discriminate|].
  destruct (String.eqb id "") eqn:D; [discriminate|].
  apply String.eqb_neq in N. apply String.eqb_neq in D.
  intro H. injection H as <-. repeat split; try assumption.
  destruct ad; reflexivity.
Qed.

(** X14. [init] succeeds exactly when the store is not initialized yet, the
    token starts with xoxb- and both channel values are non-empty; the store
    it leaves holds the three values, a client for the token and the upload
    directory, and changes the auto-delete flag only when the option is
    given. *)
Theorem init_succeeds_iff (tempUploads : string) (c : ConfigStore) (token name id : string)
  (ad : option bool) :
  ((exists c', init tempUploads c token name id ad = Returns c') <->
   isInitialized c = false /\ String.prefix "xoxb-" token = true /\ name <> "" /\ id <> "")
  /\ (forall c',
        init tempUploads c token name id ad = Returns c' ->
        isInitialized c' = true /\ slackToken c' = token /\ defaultChannelName c' = name
        /\ defaultChannelId c' = id /\ getSlackClient c' = Returns token
        /\ tempDir c' = tempUploads
        /\ autoDeleteFiles c' = match ad with Some b => b | None => autoDeleteFiles c end).
Proof.
  split.
  - split.
    + intros (c' & H). apply init_returns in H. tauto.
    + intros (I & P & N & D). unfold init. rewrite I, P.
      apply prefix_nonempty in P.
      apply String.eqb_neq in P. apply String.eqb_neq in N. apply String.eqb_neq in D.
      rewrite P, N, D. cbn [orb negb]. eauto.
  - intros c' H. apply init_returns in H. destruct H as (_ & _ & _ & _ & ->).
    repeat split.
Qed.

Lemma init_succeeds_iff_witness :
  exists c', init "/tmp/up" freshStore "xoxb-1" "alerts" "C01" (Some false) = Returns c'.
Proof.
  apply (proj1 (init_succeeds_iff "/tmp/up" freshStore "xoxb-1" "alerts" "C01" (Some false))).
  repeat split; discriminate.
Defined.

Lemma init_initialized (tempUploads : string) (c : ConfigStore) (call : initCall) :
  isInitialized c = true ->
  callInit tempUploads c call = Throws (Error "error-notifier: Already initialized!").
Proof. intro H. unfold callInit, init. now rewrite H. Qed.

Lemma runInits_initialized (tempUploads : string) (calls : list initCall) :
  forall c, isInitialized c = true -> runInits tempUploads c calls = (c, 0).
Proof.
  induction calls as [|call rest IH]; intros c H; [reflexivity|].
  cbn [runInits]. rewrite (init_initialized tempUploads c call H). now apply IH.
Qed.

(** X15. However many times [init] is called, at most one call succeeds:
    none on a store that is already initialized, which stays as it is, and
    after the first success every later call throws and the store keeps the
    values of that first call. *)
Theorem init_at_most_once (tempUploads : string) (c : ConfigStore) (calls : list initCall) :
  snd (runInits tempUploads c calls) <= 1
  /\ (isInitialized c = true -> runInits tempUploads c calls = (c, 0))
  /\ (forall call rest c',
        calls = call :: rest -> callInit tempUploads c call = Returns c' ->
        runInits tempUploads c calls = (c', 1)
        /\ forall later, In later rest ->
             callInit tempUploads c' later
             = Throws (Error "error-notifier: Already initialized!")).
Proof.
  assert (Hfirst : forall call rest c0 c',
            callInit tempUploads c0 call = Returns c' ->
            runInits tempUploads c0 (call :: rest) = (c', 1) /\ isInitialized c' = true).
  { intros call rest c0 c' H. cbn [runInits]. rewrite H.
    assert (I : isInitialized c' = true).
    { unfold callInit in H. apply init_returns in H. destruct H as (_ & _ & _ & _ & ->).
      reflexivity. }
    now rewrite (runInits_initialized tempUploads rest c' I). }
  split; [|split].
  - revert c. induction calls as [|call rest IH]; intro c; [simpl; lia|].
    destruct (callInit tempUploads c call) as [c'|e] eqn:E.
    + destruct (Hfirst call rest c c' E) as [-> _]. simpl. lia.
    + cbn [runInits]. rewrite E. apply IH.
  - now apply runInits_initialized.
  - intros call rest c' -> H. destruct (Hfirst call rest c c' H) as [R I].
    split; [exact R|]. intros later _. now apply init_initialized.
Qed.

Lemma init_at_most_once_witness :
  let first := {| callToken := "xoxb-1"; callChannelName := "alerts";
                  callChannelId := "C01"; callAutoDelete := None |} in
  let second := {| callToken := "xoxb-2"; callChannelName := "other";
                   callChannelId := "C02"; callAutoDelete := None |} in
  exists c',
    callInit "/tmp/up" freshStore first = Returns c'
    /\ runInits "/tmp/up" freshStore [first; second] = (c', 1)
    /\ defaultChannelName c' = "alerts".
Proof.
  intros first second. eexists. split; [reflexivity|]. split; [|reflexivity].
  apply (proj2 (proj2 (init_at_most_once "/tmp/up" freshStore [first; second]))
           first [second] _ eq_refl eq_refl).
Defined.

(** X16. In every store a program can reach, the client can be fetched
    exactly when the store is initialized; an initialized store has a
    non-empty token and channel values, a client built with that token and
    the upload directory; a store that is not initialized is still the fresh
    one. *)
Theorem reachable_store (tempUploads : string) (c : ConfigStore) :
  reachable tempUploads c ->
  (isInitialized c = true <-> exists client, getSlackClient c = Returns client)
  /\ (isInitialized c = true ->
      slackToken c <> "" /\ defaultChannelName c <> "" /\ defaultChannelId c <> ""
      /\ slackClient c = Some (slackToken c) /\ tempDir c = tempUploads)
  /\ (isInitialized c = false -> c = freshStore).
Proof.
  intro R. destruct R as [env|c0 c' call _ H].
  - unfold getInstance, tryAutoInitialize.
    destruct (SLACK_TOKEN_ID env) as [token|]; cbn [truthy andb orEmpty];
      [|repeat split; try discriminate; intros (x & X); discriminate X].
    destruct (String.eqb token "") eqn:T; cbn [negb andb];
      [repeat split; try discriminate; intros (x & X); discriminate X|].
    destruct (String.eqb (orEmpty (CHANNEL_NAME env)) "") eqn:N; cbn [negb andb];
      [repeat split; try discriminate; intros (x & X); discriminate X|].
    destruct (String.eqb (orEmpty (CHANNEL_ID env)) "") eqn:D; cbn [negb andb];
      [repeat split; try discriminate; intros (x & X); discriminate X|].
    apply String.eqb_neq in T. apply String.eqb_neq in N. apply String.eqb_neq in D.
    cbn. repeat split; try assumption; try discriminate; eauto.
  - unfold callInit in H. apply init_returns in H.
    destruct H as (_ & P & N & D & ->). apply prefix_nonempty in P.
    cbn. repeat split; try assumption; try discriminate; eauto.
Qed.

Lemma reachable_store_witness :
  isInitialized (getInstance "/tmp/up"
                   {| SLACK_TOKEN_ID := None; CHANNEL_NAME := Some "alerts";
                      CHANNEL_ID := Some "C01" |}) = false
  /\ getInstance "/tmp/up"
       {| SLACK_TOKEN_ID := None; CHANNEL_NAME := Some "alerts"; CHANNEL_ID := Some "C01" |}
     = freshStore.
Proof.
  split; [reflexivity|].
  apply (proj2 (proj2 (reachable_store "/tmp/up" _ (reach_instance "/tmp/up" _)))).
  reflexivity.
Defined.

(** X17. When the three environment variables are set and non-empty, the
    instance is initialized with them as it is constructed, whatever the
    token looks like, and every call of [init] afterwards throws. *)
Theorem environment_initializes (tempUploads : string) (token name id : string) :
  token <> "" -> name <> "" -> id <> "" ->
  let c := getInstance tempUploads
             {| SLACK_TOKEN_ID := Some token; CHANNEL_NAME := Some name;
                CHANNEL_ID := Some id |} in
  isInitialized c = true /\ slackToken c = token /\ defaultChannelName c = name
  /\ defaultChannelId c = id /\ getSlackClient c = Returns token
  /\ forall call,
       callInit tempUploads c call = Throws (Error "error-notifier: Already initialized!").
Proof.
  intros T N D c.
  assert (E : c = {| isInitialized := true; slackToken := token; defaultChannelName := name;
                     defaultChannelId := id; slackClient := Some token;
                     autoDeleteFiles := true; tempDir := tempUploads |}).
  { unfold c, getInstance, tryAutoInitialize. cbn [SLACK_TOKEN_ID CHANNEL_NAME CHANNEL_ID
                                                    truthy orEmpty].
    apply String.eqb_neq in T. apply String.eqb_neq in N. apply String.eqb_neq in D.
    rewrite T, N, D. reflexivity. }
  rewrite E. repeat split.
Qed.

Lemma environment_initializes_witness :
  let c := getInstance "/tmp/up"
             {| SLACK_TOKEN_ID := Some "not-a-bot-token"; CHANNEL_NAME := Some "alerts";
                CHANNEL_ID := Some "C01" |} in
  isInitialized c = true
  /\ init "/tmp/up" c "xoxb-1" "alerts" "C01" None
     = Throws (Error "error-notifier: Already initialized!").
Proof.
  intro c.
  destruct (environment_initializes "/tmp/up" "not-a-bot-token" "alerts" "C01")
    as (I & _ & _ & _ & _ & F); try discriminate.
  split; [exact I|].
  exact (F {| callToken := "xoxb-1"; callChannelName := "alerts"; callChannelId := "C01";
              callAutoDelete := None |}).
Defined.

(** * Properties of the sweep *)

Lemma sweep_kept (statFails unlinkFails : string -> bool) (now maxAgeMs : Z)
  (files : list (string * Z)) :
  forall e, In e (sweep statFails unlinkFails now maxAgeMs files) ->
            In e files
            /\ (statFails (fst e) = true \/ (now - snd e <= maxAgeMs)%Z
                \/ unlinkFails (fst e) = true).
Proof.
  induction files as [|[f mt] tl IH]; intros e H; [destruct H|].
  cbn [sweep] in H.
  destruct (statFails f) eqn:S.
  - destruct H as [<-|H]; [split; [now left | now left] | destruct (IH e H); split; [now right | assumption]].
  - destruct (Z.ltb maxAgeMs (now - mt)) eqn:O.
    + destruct (unlinkFails f) eqn:U.
      * destruct H as [<-|H]; [split; [now left | now right; right]
                              | destruct (IH e H); split; [now right | assumption]].
      * destruct (IH e H); split; [now right | assumption].
    + apply Z.ltb_ge in O.
      destruct H as [<-|H]; [split; [now left | right; now left]
                            | destruct (IH e H); split; [now right | assumption]].
Qed.

Lemma sweep_keeps (statFails unlinkFails : string -> bool) (now maxAgeMs : Z)
  (files : list (string * Z)) :
  forall e, In e files ->
            (statFails (fst e) = true \/ (now - snd e <= maxAgeMs)%Z
             \/ unlinkFails (fst e) = true) ->
            In e (sweep statFails unlinkFails now maxAgeMs files).
Proof.
  induction files as [|[f mt] tl IH]; intros e H K; [destruct H|].
  cbn [sweep]. destruct H as [<-|H].
  - cbn [fst snd] in K. destruct (statFails f); [now left|].
    destruct (Z.ltb maxAgeMs (now - mt)) eqn:O; [|now left].
    apply Z.ltb_lt in O. destruct (unlinkFails f); [now left|].
    destruct K as [K|[K|K]]; [discriminate | lia | discriminate].
  - specialize (IH e H K).
    destruct (statFails f); [now right|].
    destruct (Z.ltb maxAgeMs (now - mt)); [|now right].
    destruct (unlinkFails f); [now right | exact IH].
Qed.

Lemma sweep_idempotent (statFails unlinkFails : string -> bool) (now maxAgeMs : Z)
  (files : list (string * Z)) :
  sweep statFails unlinkFails now maxAgeMs (sweep statFails unlinkFails now maxAgeMs files)
  = sweep statFails unlinkFails now maxAgeMs files.
Proof.
  induction files as [|[f mt] tl IH]; [reflexivity|].
  cbn [sweep]. destruct (statFails f) eqn:S.
  - cbn [sweep]. now rewrite S, IH.
  - destruct (Z.ltb maxAgeMs (now - mt)) eqn:O.
    + destruct (unlinkFails f) eqn:U; [|exact IH].
      cbn [sweep]. now rewrite S, O, U, IH.
    + cbn [sweep]. now rewrite S, O, IH.
Qed.

(** X18. [cleanupOldFiles] never removes a file modified within the age
    limit (24 hours unless another number of hours is passed): what is left
    is part of the listing, holds every file not older than the limit, and
    misses only files that are older and whose [stat] and [unlink] both
    succeeded; running it again at the same instant changes nothing, and it
    does nothing when the directory does not exist. *)
Theorem cleanup_removes_only_old_files (statFails unlinkFails : string -> bool)
  (maxAgeHours : option Z) (tempDirExists : bool) (now : Z) (files : list (string * Z)) :
  let limit := ((match maxAgeHours with Some h => h | None => 24 end) * 3600000)%Z in
  let left := cleanupOldFiles statFails unlinkFails maxAgeHours tempDirExists now files in
  (forall e, In e left -> In e files)
  /\ (forall file mtimeMs,
        In (file, mtimeMs) files -> (now - mtimeMs <= limit)%Z -> In (file, mtimeMs) left)
  /\ (forall file mtimeMs,
        In (file, mtimeMs) files -> ~ In (file, mtimeMs) left ->
        (limit < now - mtimeMs)%Z /\ statFails file = false /\ unlinkFails file = false
        /\ tempDirExists = true)
  /\ cleanupOldFiles statFails unlinkFails maxAgeHours tempDirExists now left = left
  /\ (tempDirExists = false -> left = files).
Proof.
  intros limit left. unfold left, cleanupOldFiles.
  replace ((match maxAgeHours with Some h => h | None => 24 end) * 60 * 60 * 1000)%Z
    with limit by (unfold limit; lia).
  destruct tempDirExists; cbn [negb].
  - split; [intros e H; exact (proj1 (sweep_kept _ _ _ _ _ e H))|].
    split; [intros f mt H A; apply sweep_keeps; [exact H | right; now left]|].
    split; [|split; [apply sweep_idempotent | discriminate]].
    intros f mt H N.
    destruct (statFails f) eqn:S;
      [exfalso; apply N; apply sweep_keeps; [exact H | left; exact S]|].
    destruct (unlinkFails f) eqn:U;
      [exfalso; apply N; apply sweep_keeps; [exact H | right; right; exact U]|].
    repeat split. destruct (Z.le_gt_cases (now - mt) limit) as [A|A]; [|exact A].
    exfalso. apply N. apply sweep_keeps; [exact H | right; now left].
  - split; [tauto|]. split; [tauto|]. split; [intros f mt H N; contradiction|].
    split; reflexivity.
Qed.

Lemma cleanup_removes_only_old_files_witness :
  In ("new.txt", 900%Z)
     (cleanupOldFiles (fun _ => false) (fun _ => false) None true 86400500
        [("old.txt", 0%Z); ("new.txt", 900%Z)]).
Proof.
  apply (proj1 (proj2 (cleanup_removes_only_old_files (fun _ => false) (fun _ => false)
                         None true 86400500 [("old.txt", 0%Z); ("new.txt", 900%Z)]))).
  - right. now left.
  - vm_compute. intro H. discriminate H.
Defined.
